(** * eyebalance-backend: the entitlement store and the Stripe webhook

    A shallow embedding of [src/db.js], [src/server.js] and of the variant
    of the server kept in [src/unnamed/part_000], followed by the
    properties of the webhook reconciliation and of the status query.

    Events are typed as the Stripe API types them: a field the API
    declares nullable is an [option], numbers are integers (Stripe's
    timestamps are whole seconds). *)

From Stdlib Require Import ZArith String List Bool Lia.
Import ListNotations.
Open Scope string_scope.
Open Scope Z_scope.

(* ================================================================= *)
(** ** db.js: the [subscriptions] table *)

Module Db.

(** What a cell of the table holds. *)
Inductive value : Type :=
| NULL
| INTEGER (n : Z)
| TEXT (s : string).

Definition is_null (v : value) : bool :=
  match v with NULL => true | _ => false end.

(** SQL [a = b]: a comparison with NULL is never true. *)
Definition sql_eq (a b : value) : bool :=
  match a, b with
  | INTEGER n, INTEGER m => Z.eqb n m
  | TEXT s, TEXT t => String.eqb s t
  | _, _ => false
  end.

(** One row, with the columns of
<<
    CREATE TABLE IF NOT EXISTS subscriptions (
      deviceId TEXT PRIMARY KEY,
      plan TEXT NOT NULL,
      status TEXT NOT NULL,
      trial INTEGER NOT NULL,
      expiresAt INTEGER,
      customerId TEXT)
>> *)
Record row : Type := mkRow {
  deviceId : value;
  plan : value;
  status : value;
  trial : value;
  expiresAt : value;
  customerId : value
}.

(** The database file.  [CREATE TABLE IF NOT EXISTS] keeps the table of
    an existing file as it is, so whether the table carries the column
    [trial INTEGER NOT NULL] that db.js declares is part of the state:
    [trial_column] is [true] for a table created by db.js, [false] for
    a table that has only the five columns the statements of the
    server name. *)
Record database : Type := mkDb {
  trial_column : bool;
  rows : list row
}.

(** [new Database("subscriptions.db")] followed by the CREATE TABLE
    statement: [file] is the table found on disk, if any. *)
Definition open (file : option database) : database :=
  match file with
  | Some d => d
  | None => {| trial_column := true; rows := [] |}
  end.

Definition with_rows (d : database) (rs : list row) : database :=
  {| trial_column := trial_column d; rows := rs |}.

(** The NOT NULL constraints, checked on a row about to be stored. *)
Definition not_null (d : database) (r : row) : bool :=
  negb (is_null (plan r)) && negb (is_null (status r))
  && (negb (trial_column d) || negb (is_null (trial r))).

(** [WHERE deviceId = ?] *)
Definition matches (key : value) (r : row) : bool :=
  sql_eq (deviceId r) key.

(** [SELECT * FROM subscriptions WHERE deviceId = ?], [.get(key)]:
    the first matching row, or [undefined]. *)
Definition get (key : value) (d : database) : option row :=
  find (matches key) (rows d).

(** The rows after every row with the given key has been rewritten. *)
Definition replace (key : value) (set : row -> row) (rs : list row)
  : list row :=
  map (fun r => if matches key r then set r else r) rs.

(** [UPDATE subscriptions SET ... WHERE deviceId = ?]: every matching
    row is replaced by [set] of it.  SQLite checks NOT NULL only on
    the columns the statement assigns, and only when a row matches:
    [assigned_not_null] says that none of the values assigned to
    [plan] and [status] is NULL.  A failing statement changes
    nothing. *)
Definition update_where (assigned_not_null : bool) (set : row -> row)
    (key : value) (d : database) : option database :=
  if assigned_not_null || negb (existsb (matches key) (rows d))
  then Some (with_rows d (replace key set (rows d)))
  else None.

(** [INSERT INTO subscriptions (...) VALUES (...) ON CONFLICT(deviceId)
    DO UPDATE SET ...].  SQLite checks the NOT NULL constraints of the
    row to insert first, whether or not the key is already there; the
    upsert clause only answers the uniqueness conflict.  When a row
    with the key exists it becomes [on_conflict old excluded];
    otherwise the new row is appended.  A NULL key conflicts with
    nothing. *)
Definition insert_on_conflict (on_conflict : row -> row -> row)
    (excluded : row) (d : database) : option database :=
  if not_null d excluded then
    if existsb (matches (deviceId excluded)) (rows d) then
      Some (with_rows d
              (replace (deviceId excluded)
                 (fun old => on_conflict old excluded) (rows d)))
    else Some (with_rows d (rows d ++ [excluded]))
  else None.

(** The row built by an INSERT that names the five columns
    [(deviceId, plan, status, expiresAt, customerId)]: [trial] is not
    named and has no DEFAULT, so it is NULL. *)
Definition five_columns (k p s e c : value) : row :=
  {| deviceId := k; plan := p; status := s; trial := NULL;
     expiresAt := e; customerId := c |}.

(** [DO UPDATE SET plan=excluded.plan, status=excluded.status,
    expiresAt=excluded.expiresAt, customerId=excluded.customerId] *)
Definition set_all (old excluded : row) : row :=
  {| deviceId := deviceId old; plan := plan excluded;
     status := status excluded; trial := trial old;
     expiresAt := expiresAt excluded; customerId := customerId excluded |}.

(** [DO UPDATE SET plan=excluded.plan, status=excluded.status,
    customerId=excluded.customerId] (part_000, subscription created) *)
Definition set_plan_status_customer (old excluded : row) : row :=
  {| deviceId := deviceId old; plan := plan excluded;
     status := status excluded; trial := trial old;
     expiresAt := expiresAt old; customerId := customerId excluded |}.

(** [SET status='inactive'] *)
Definition set_inactive (r : row) : row :=
  {| deviceId := deviceId r; plan := plan r; status := TEXT "inactive";
     trial := trial r; expiresAt := expiresAt r;
     customerId := customerId r |}.

(** [SET plan='free', status='inactive', expiresAt=NULL] *)
Definition set_free (r : row) : row :=
  {| deviceId := deviceId r; plan := TEXT "free";
     status := TEXT "inactive"; trial := trial r; expiresAt := NULL;
     customerId := customerId r |}.

(** [SET plan=?, status=?, expiresAt=?] (part_000, subscription
    updated) *)
Definition set_plan_status_expires (p s e : value) (r : row) : row :=
  {| deviceId := deviceId r; plan := p; status := s; trial := trial r;
     expiresAt := e; customerId := customerId r |}.

(** A setter that never touches the key, as those of the statements. *)
Definition keeps_key (set : row -> row) : Prop :=
  forall r, deviceId (set r) = deviceId r.

(** A conflict clause that leaves the row it has just written as it is. *)
Definition settles (oc : row -> row -> row) (x : row) : Prop :=
  oc x x = x.

End Db.

(* ================================================================= *)
(** ** The objects the Stripe SDK hands to the server *)

Module Stripe.

(** [metadata]: string keys to string values. *)
Definition Metadata : Type := list (string * string).

Fixpoint lookup (key : string) (m : Metadata) : option string :=
  match m with
  | [] => None
  | (k, v) :: m' => if String.eqb k key then Some v else lookup key m'
  end.

(** A Checkout Session; [metadata], [subscription] and [customer] are
    nullable in the API. *)
Record Session : Type := {
  session_metadata : option Metadata;
  subscription : option string;
  session_customer : option string
}.

Record Recurring : Type := { interval : string }.
Record Price : Type := { recurring : option Recurring }.
Record SubscriptionItem : Type := { price : Price }.

(** A Subscription; [items] is the list [items.data], [trial_end] is
    in seconds and nullable.  [metadata] is always an object, possibly
    empty, and [customer] is the id of the customer that owns the
    subscription: the API leaves neither null. *)
Record Subscription : Type := {
  metadata : Metadata;
  items : list SubscriptionItem;
  status : string;
  trial_end : option Z;
  customer : string
}.

Record Invoice : Type := { invoice_subscription : option string }.

(** [event.type] together with [event.data.object]. *)
Inductive Event : Type :=
| checkout_session_completed (session : Session)
| customer_subscription_created (sub : Subscription)
| customer_subscription_updated (sub : Subscription)
| invoice_payment_failed (invoice : Invoice)
| customer_subscription_deleted (sub : Subscription)
| other (type : string).

Definition type (e : Event) : string :=
  match e with
  | checkout_session_completed _ => "checkout.session.completed"
  | customer_subscription_created _ => "customer.subscription.created"
  | customer_subscription_updated _ => "customer.subscription.updated"
  | invoice_payment_failed _ => "invoice.payment_failed"
  | customer_subscription_deleted _ => "customer.subscription.deleted"
  | other t => t
  end.

End Stripe.

(* ================================================================= *)
(** ** JavaScript values, HTTP responses, errors *)

Module Js.

(** The values the handlers pass to a prepared statement. *)
Inductive value : Type :=
| undefined
| null
| str (s : string)
| num (n : Z).

(** [!v] is false exactly on a truthy [v]. *)
Definition truthy (v : value) : bool :=
  match v with
  | undefined | null => false
  | str s => negb (String.eqb s "")
  | num n => negb (Z.eqb n 0)
  end.

Definition of_string (o : option string) (absent : value) : value :=
  match o with Some s => str s | None => absent end.

(** The bodies the server sends are flat objects of scalars. *)
Inductive json : Type :=
| JNull
| JBool (b : bool)
| JNum (n : Z)
| JStr (s : string).

Inductive response : Type :=
| Json (code : Z) (body : list (string * json))   (* res.status(code).json(body) *)
| Send (code : Z) (text : string).                (* res.status(code).send(text) *)

Inductive error : Type :=
| SignatureError (message : string)  (* thrown by constructEvent *)
| StripeError                        (* a rejected SDK call *)
| TypeError                          (* property of null/undefined, bad bind *)
| SqliteError.                       (* a failed constraint *)

Definition message (e : error) : string :=
  match e with
  | SignatureError m => m
  | StripeError => "StripeError"
  | TypeError => "TypeError"
  | SqliteError => "SqliteError"
  end.

(** How a block of statements ends: it falls through with a value, it
    executes [return res...], or it throws. *)
Inductive completion (A : Type) : Type :=
| Normal (a : A)
| Return (r : response)
| Throw (e : error).
Arguments Normal {A} a.
Arguments Return {A} r.
Arguments Throw {A} e.

(** What the caller of a handler sees. *)
Inductive outcome : Type :=
| Responded (r : response)
| Unhandled (e : error)   (* the handler threw or its promise rejected *)
| Pending.                (* the handler ended without answering *)

End Js.

(* ================================================================= *)
(** ** What the server does not define itself *)

(** The Stripe SDK, the environment and the parameter binder of
    better-sqlite3.  [processor] is the state on Stripe's side; a call
    that returns [None] is a promise that rejects. *)
Class Collaborators : Type := {
  processor : Type;
  (** [process.env.STRIPE_WEBHOOK_SECRET] *)
  STRIPE_WEBHOOK_SECRET : option string;
  (** [stripe.webhooks.constructEvent(body, sig, secret)]: the verified
      event, or the message of the error it throws. *)
  constructEvent : string -> option string -> option string
                   -> string + Stripe.Event;
  (** [stripe.subscriptions.retrieve(id)] *)
  subscriptions_retrieve : processor -> Js.value -> option Stripe.Subscription;
  (** [stripe.subscriptions.update(id, { metadata: { deviceId } })] *)
  subscriptions_update : processor -> Js.value -> Js.value -> option processor;
  (** What a statement does with an [undefined] parameter: bind the
      given value, or raise a TypeError ([None]). *)
  bind_undefined : option Db.value
}.

Section Handlers.

Context {C : Collaborators}.

Record request : Type := {
  body : string;                      (* req.body, raw *)
  stripe_signature : option string    (* req.headers["stripe-signature"] *)
}.

(** The database handle and Stripe's side. *)
Record world : Type := {
  db : Db.database;
  stripe : processor
}.

Definition with_db (w : world) (d : Db.database) : world :=
  {| db := d; stripe := stripe w |}.

Definition with_stripe (w : world) (p : processor) : world :=
  {| db := db w; stripe := p |}.

(** *** Statements in sequence *)

Definition M (A : Type) : Type := world -> Js.completion A * world.

Definition ret {A} (a : A) : M A := fun w => (Js.Normal a, w).
Definition throw {A} (e : Js.error) : M A := fun w => (Js.Throw e, w).
(** [return res.json(...)], and also a final [res.json(...)]. *)
Definition return_ {A} (r : Js.response) : M A := fun w => (Js.Return r, w).

Definition bind {A B} (m : M A) (k : A -> M B) : M B :=
  fun w =>
    match m w with
    | (Js.Normal a, w') => k a w'
    | (Js.Return r, w') => (Js.Return r, w')
    | (Js.Throw e, w') => (Js.Throw e, w')
    end.

(** [try { m } catch (err) { handler err }] *)
Definition try_catch {A} (m : M A) (handler : Js.error -> M A) : M A :=
  fun w =>
    match m w with
    | (Js.Throw e, w') => handler e w'
    | other => other
    end.

(** The handler as Express calls it. *)
Definition handle (m : M unit) (w : world) : Js.outcome * world :=
  match m w with
  | (Js.Normal _, w') => (Js.Pending, w')
  | (Js.Return r, w') => (Js.Responded r, w')
  | (Js.Throw e, w') => (Js.Unhandled e, w')
  end.

End Handlers.

Notation "x <- m ;; k" := (bind m (fun x => k))
  (at level 61, m at next level, right associativity).
Notation "m ;; k" := (bind m (fun _ => k))
  (at level 61, right associativity).

Section Primitives.

Context {C : Collaborators}.

Definition skip : M unit := ret tt.

(** [await stripe.subscriptions.retrieve(id)] *)
Definition retrieve (id : Js.value) : M Stripe.Subscription :=
  fun w =>
    match subscriptions_retrieve (stripe w) id with
    | Some sub => (Js.Normal sub, w)
    | None => (Js.Throw Js.StripeError, w)
    end.

(** [await stripe.subscriptions.update(id, { metadata: { deviceId } })] *)
Definition update (id deviceId : Js.value) : M unit :=
  fun w =>
    match subscriptions_update (stripe w) id deviceId with
    | Some p => (Js.Normal tt, with_stripe w p)
    | None => (Js.Throw Js.StripeError, w)
    end.

(** A parameter of [.run(...)] or [.get(...)] as the statement gets
    it.  Text columns only receive strings here and [expiresAt] only
    numbers, so no conversion between the two is needed. *)
Definition bound (v : Js.value) : option Db.value :=
  match v with
  | Js.undefined => bind_undefined
  | Js.null => Some Db.NULL
  | Js.str s => Some (Db.TEXT s)
  | Js.num n => Some (Db.INTEGER n)
  end.

Definition param (v : Js.value) : M Db.value :=
  match bound v with
  | Some x => ret x
  | None => throw Js.TypeError
  end.

(** Run a statement on the database; a failed constraint throws. *)
Definition exec (statement : Db.database -> option Db.database) : M unit :=
  fun w =>
    match statement (db w) with
    | Some d => (Js.Normal tt, with_db w d)
    | None => (Js.Throw Js.SqliteError, w)
    end.

(** [db.prepare(`INSERT INTO subscriptions (deviceId, plan, status,
    expiresAt, customerId) VALUES (?, ?, ?, ?, ?) ON CONFLICT(deviceId)
    DO UPDATE SET ...`).run(deviceId, plan, status, expiresAt,
    customerId)] *)
Definition run_insert (on_conflict : Db.row -> Db.row -> Db.row)
    (deviceId plan status expiresAt customerId : Js.value) : M unit :=
  k <- param deviceId ;;
  p <- param plan ;;
  s <- param status ;;
  e <- param expiresAt ;;
  c <- param customerId ;;
  exec (Db.insert_on_conflict on_conflict (Db.five_columns k p s e c)).

(** [db.prepare(`UPDATE subscriptions SET status='inactive' WHERE
    deviceId=?`).run(deviceId)] *)
Definition run_set_inactive (deviceId : Js.value) : M unit :=
  k <- param deviceId ;;
  exec (Db.update_where true Db.set_inactive k).

(** [db.prepare(`UPDATE subscriptions SET plan='free',
    status='inactive', expiresAt=NULL WHERE deviceId=?`).run(deviceId)] *)
Definition run_set_free (deviceId : Js.value) : M unit :=
  k <- param deviceId ;;
  exec (Db.update_where true Db.set_free k).

(** [db.prepare(`UPDATE subscriptions SET plan=?, status=?, expiresAt=?
    WHERE deviceId=?`).run(plan, status, expiresAt, deviceId)] *)
Definition run_set_plan_status_expires
    (plan status expiresAt deviceId : Js.value) : M unit :=
  p <- param plan ;;
  s <- param status ;;
  e <- param expiresAt ;;
  k <- param deviceId ;;
  exec (Db.update_where (negb (Db.is_null p) && negb (Db.is_null s))
          (Db.set_plan_status_expires p s e) k).

(** [db.prepare("SELECT * FROM subscriptions WHERE deviceId = ?")
    .get(deviceId)] *)
Definition select (deviceId : Js.value) : M (option Db.row) :=
  k <- param deviceId ;;
  fun w => (Js.Normal (Db.get k (db w)), w).

(** [metadata?.key], [undefined] when the metadata or the key is
    missing. *)
Definition field (metadata : option Stripe.Metadata) (key : string)
  : Js.value :=
  match metadata with
  | Some m => Js.of_string (Stripe.lookup key m) Js.undefined
  | None => Js.undefined
  end.

(** [metadata.key], which throws on a null [metadata]. *)
Definition strict_field (metadata : option Stripe.Metadata) (key : string)
  : M Js.value :=
  match metadata with
  | Some m => ret (Js.of_string (Stripe.lookup key m) Js.undefined)
  | None => throw Js.TypeError
  end.

(** [trial_end ? trial_end * 1000 : null] *)
Definition milliseconds (trial_end : option Z) : Js.value :=
  match trial_end with
  | Some t => if Js.truthy (Js.num t) then Js.num (t * 1000) else Js.null
  | None => Js.null
  end.

(** [sub.items.data[0].price.recurring.interval === "year" ? "yearly"
    : "monthly"]; reading a property of the missing first item or of a
    null [recurring] throws. *)
Definition plan_of (sub : Stripe.Subscription) : M Js.value :=
  match Stripe.items sub with
  | [] => throw Js.TypeError
  | item :: _ =>
      match Stripe.recurring (Stripe.price item) with
      | None => throw Js.TypeError
      | Some r =>
          ret (Js.str (if String.eqb (Stripe.interval r) "year"
                       then "yearly" else "monthly"))
      end
  end.

Definition json_of (v : Db.value) : Js.json :=
  match v with
  | Db.NULL => Js.JNull
  | Db.INTEGER n => Js.JNum n
  | Db.TEXT s => Js.JStr s
  end.

(** [{ received: true }] *)
Definition received : Js.response :=
  Js.Json 200 [("received", Js.JBool true)].

End Primitives.

Arguments field : simpl never.
Arguments milliseconds : simpl never.
Arguments plan_of : simpl never.

(* ================================================================= *)
(** ** server.js *)

Module Server.
Section Server.

Context {C : Collaborators}.

(** [if (event.type === "checkout.session.completed") { ... }] *)
Definition checkout_completed (event : Stripe.Event) : M unit :=
  match event with
  | Stripe.checkout_session_completed session =>
      let deviceId := field (Stripe.session_metadata session) "deviceId" in
      let plan := field (Stripe.session_metadata session) "plan" in
      let session_subscription :=
        Js.of_string (Stripe.subscription session) Js.null in
      if negb (Js.truthy deviceId) || negb (Js.truthy session_subscription)
      then return_ received
      else
        subscription <- retrieve session_subscription ;;
        update session_subscription deviceId ;;
        run_insert Db.set_all
          deviceId
          plan
          (Js.str (Stripe.status subscription))
          (milliseconds (Stripe.trial_end subscription))
          (Js.str (Stripe.customer subscription))
  | _ => skip
  end.

(** The block shared by [customer.subscription.created] and
    [customer.subscription.updated]. *)
Definition subscription_upsert (sub : Stripe.Subscription) : M unit :=
  let deviceId := field (Some (Stripe.metadata sub)) "deviceId" in
  if negb (Js.truthy deviceId) then return_ received
  else
    plan <- plan_of sub ;;
    run_insert Db.set_all
      deviceId
      plan
      (Js.str (Stripe.status sub))
      (milliseconds (Stripe.trial_end sub))
      (Js.str (Stripe.customer sub)).

(** [if (event.type === "customer.subscription.created" ||
         event.type === "customer.subscription.updated") { ... }] *)
Definition subscription_created_or_updated (event : Stripe.Event) : M unit :=
  match event with
  | Stripe.customer_subscription_created sub
  | Stripe.customer_subscription_updated sub => subscription_upsert sub
  | _ => skip
  end.

(** [if (event.type === "invoice.payment_failed") { ... }] *)
Definition payment_failed (event : Stripe.Event) : M unit :=
  match event with
  | Stripe.invoice_payment_failed invoice =>
      let invoice_subscription :=
        Js.of_string (Stripe.invoice_subscription invoice) Js.null in
      if negb (Js.truthy invoice_subscription) then return_ received
      else
        sub <- retrieve invoice_subscription ;;
        let deviceId := field (Some (Stripe.metadata sub)) "deviceId" in
        if negb (Js.truthy deviceId) then return_ received
        else run_set_inactive deviceId
  | _ => skip
  end.

(** [if (event.type === "customer.subscription.deleted") { ... }] *)
Definition subscription_deleted (event : Stripe.Event) : M unit :=
  match event with
  | Stripe.customer_subscription_deleted sub =>
      let deviceId := field (Some (Stripe.metadata sub)) "deviceId" in
      if negb (Js.truthy deviceId) then return_ received
      else run_set_free deviceId
  | _ => skip
  end.

(** [try { event = stripe.webhooks.constructEvent(...) } catch (err)
    { return res.status(400).send("Invalid signature") }] *)
Definition verified_event (req : request) : M Stripe.Event :=
  try_catch
    (match constructEvent (body req) (stripe_signature req)
             STRIPE_WEBHOOK_SECRET with
     | inr event => ret event
     | inl message => throw (Js.SignatureError message)
     end)
    (fun err => return_ (Js.Send 400 "Invalid signature")).

(** [app.post("/webhook", ..., async (req, res) => { try { ... } catch
    (err) { res.json({ received: true }) } })] *)
Definition webhook (req : request) : world -> Js.outcome * world :=
  handle
    (try_catch
       (event <- verified_event req ;;
        checkout_completed event ;;
        subscription_created_or_updated event ;;
        payment_failed event ;;
        subscription_deleted event ;;
        return_ received)
       (fun err => return_ received)).

(** [{ plan: "free", status: "inactive", expiresAt: null }] *)
Definition free_inactive : Js.response :=
  Js.Json 200 [("plan", Js.JStr "free"); ("status", Js.JStr "inactive");
               ("expiresAt", Js.JNull)].

(** [app.get("/subscription-status/:deviceId", (req, res) => { try
    { ... } catch (err) { res.json({ plan: "free", ... }) } })] *)
Definition subscription_status (deviceId : string)
  : world -> Js.outcome * world :=
  handle
    (try_catch
       (row <- select (Js.str deviceId) ;;
        match row with
        | None => return_ free_inactive
        | Some row =>
            return_ (Js.Json 200 [("plan", json_of (Db.plan row));
                                  ("status", json_of (Db.status row));
                                  ("expiresAt", json_of (Db.expiresAt row))])
        end)
       (fun err => return_ free_inactive)).

End Server.
End Server.

(* ================================================================= *)
(** ** unnamed/part_000: the variant of the server *)

Module Part000.
Section Part000.

Context {C : Collaborators}.

(** [if (event.type === "checkout.session.completed") { ... }] *)
Definition checkout_completed (event : Stripe.Event) : M unit :=
  match event with
  | Stripe.checkout_session_completed session =>
      deviceId <- strict_field (Stripe.session_metadata session) "deviceId" ;;
      plan <- strict_field (Stripe.session_metadata session) "plan" ;;
      let customerId :=
        Js.of_string (Stripe.session_customer session) Js.null in
      let session_subscription :=
        Js.of_string (Stripe.subscription session) Js.null in
      subscription <- retrieve session_subscription ;;
      update session_subscription deviceId ;;
      run_insert Db.set_all
        deviceId
        plan
        (Js.str (Stripe.status subscription))
        (milliseconds (Stripe.trial_end subscription))
        customerId
  | _ => skip
  end.

(** [if (event.type === "customer.subscription.created") { ... }] *)
Definition subscription_created (event : Stripe.Event) : M unit :=
  match event with
  | Stripe.customer_subscription_created subscription =>
      let deviceId := field (Some (Stripe.metadata subscription)) "deviceId" in
      if negb (Js.truthy deviceId) then return_ received
      else
        plan <- plan_of subscription ;;
        run_insert Db.set_plan_status_customer
          deviceId
          plan
          (Js.str (Stripe.status subscription))
          (milliseconds (Stripe.trial_end subscription))
          (Js.str (Stripe.customer subscription))
  | _ => skip
  end.

(** [if (event.type === "customer.subscription.updated") { ... }] *)
Definition subscription_updated (event : Stripe.Event) : M unit :=
  match event with
  | Stripe.customer_subscription_updated subscription =>
      let deviceId := field (Some (Stripe.metadata subscription)) "deviceId" in
      if negb (Js.truthy deviceId) then return_ received
      else
        plan <- plan_of subscription ;;
        run_set_plan_status_expires
          plan
          (Js.str (Stripe.status subscription))
          (milliseconds (Stripe.trial_end subscription))
          deviceId
  | _ => skip
  end.

(** [if (event.type === "invoice.payment_failed") { try { ... } catch
    (err) { console.error(...) } }] *)
Definition payment_failed (event : Stripe.Event) : M unit :=
  match event with
  | Stripe.invoice_payment_failed invoice =>
      let subscriptionId :=
        Js.of_string (Stripe.invoice_subscription invoice) Js.null in
      try_catch
        (sub <- retrieve subscriptionId ;;
         let deviceId := field (Some (Stripe.metadata sub)) "deviceId" in
         if negb (Js.truthy deviceId) then return_ received
         else run_set_inactive deviceId)
        (fun err => skip)
  | _ => skip
  end.

(** [if (event.type === "customer.subscription.deleted") { ... }] *)
Definition subscription_deleted (event : Stripe.Event) : M unit :=
  match event with
  | Stripe.customer_subscription_deleted subscription =>
      let deviceId := field (Some (Stripe.metadata subscription)) "deviceId" in
      run_set_free deviceId
  | _ => skip
  end.

(** [try { event = stripe.webhooks.constructEvent(...) } catch (err)
    { return res.status(400).send(`Webhook Error: ${err.message}`) }] *)
Definition verified_event (req : request) : M Stripe.Event :=
  try_catch
    (match constructEvent (body req) (stripe_signature req)
             STRIPE_WEBHOOK_SECRET with
     | inr event => ret event
     | inl message => throw (Js.SignatureError message)
     end)
    (fun err => return_ (Js.Send 400 ("Webhook Error: " ++ Js.message err))).

(** [app.post("/webhook", ..., async (req, res) => { ... })] *)
Definition webhook (req : request) : world -> Js.outcome * world :=
  handle
    (event <- verified_event req ;;
     checkout_completed event ;;
     subscription_created event ;;
     subscription_updated event ;;
     payment_failed event ;;
     subscription_deleted event ;;
     return_ received).

(** [app.get("/subscription-status/:deviceId", (req, res) => { ... })] *)
Definition subscription_status (deviceId : string)
  : world -> Js.outcome * world :=
  handle
    (row <- select (Js.str deviceId) ;;
     match row with
     | None =>
         return_ (Js.Json 200 [("plan", Js.JStr "free");
                               ("status", Js.JStr "inactive");
                               ("trial", Js.JBool false)])
     | Some row =>
         return_ (Js.Json 200 [("plan", json_of (Db.plan row));
                               ("status", json_of (Db.status row));
                               ("expiresAt", json_of (Db.expiresAt row))])
     end).

End Part000.
End Part000.

(* ================================================================= *)
(** ** A concrete Stripe, for running the handlers *)

Module Demo.

Definition month : Stripe.SubscriptionItem :=
  {| Stripe.price := {| Stripe.recurring := Some {| Stripe.interval := "month" |} |} |}.

(** The subscription [sub_1] of customer [cus_1]: on trial, and once
    the trial is over. *)
Definition sub_1 (metadata : Stripe.Metadata) : Stripe.Subscription :=
  {| Stripe.metadata := metadata;
     Stripe.items := [month];
     Stripe.status := "trialing";
     Stripe.trial_end := Some 1700000000;
     Stripe.customer := "cus_1" |}.

Definition sub_1_active (metadata : Stripe.Metadata) : Stripe.Subscription :=
  {| Stripe.metadata := metadata;
     Stripe.items := [month];
     Stripe.status := "active";
     Stripe.trial_end := None;
     Stripe.customer := "cus_1" |}.

Definition abc : Stripe.Metadata := [("deviceId", "abc")].

Definition session_1 : Stripe.Session :=
  {| Stripe.session_metadata := Some [("deviceId", "abc"); ("plan", "monthly")];
     Stripe.subscription := Some "sub_1";
     Stripe.session_customer := Some "cus_1" |}.

(** A session whose subscription Stripe does not know. *)
Definition session_2 : Stripe.Session :=
  {| Stripe.session_metadata := Some [("deviceId", "abc"); ("plan", "monthly")];
     Stripe.subscription := Some "sub_2";
     Stripe.session_customer := Some "cus_1" |}.

(** The payload to event table of the demo; the raw body stands for
    the JSON it would carry. *)
Definition decode (body : string) : Stripe.Event :=
  if String.eqb body "checkout" then
    Stripe.checkout_session_completed session_1
  else if String.eqb body "checkout sub_2" then
    Stripe.checkout_session_completed session_2
  else if String.eqb body "created" then
    Stripe.customer_subscription_created (sub_1 abc)
  else if String.eqb body "updated" then
    Stripe.customer_subscription_updated (sub_1_active abc)
  else if String.eqb body "payment failed" then
    Stripe.invoice_payment_failed
      {| Stripe.invoice_subscription := Some "sub_1" |}
  else if String.eqb body "deleted" then
    Stripe.customer_subscription_deleted (sub_1 abc)
  else if String.eqb body "deleted, no device" then
    Stripe.customer_subscription_deleted (sub_1 [])
  else Stripe.other body.

Definition set_device (deviceId : string) (sub : Stripe.Subscription)
  : Stripe.Subscription :=
  {| Stripe.metadata := [("deviceId", deviceId)];
     Stripe.items := Stripe.items sub;
     Stripe.status := Stripe.status sub;
     Stripe.trial_end := Stripe.trial_end sub;
     Stripe.customer := Stripe.customer sub |}.

(** Stripe's side is the list of its subscriptions by id; a signature
    is good when it is the string ["signed"]. *)
Definition collaborators : Collaborators :=
  {| processor := list (string * Stripe.Subscription);
     STRIPE_WEBHOOK_SECRET := Some "whsec";
     constructEvent := fun body sig secret =>
       match sig, secret with
       | Some "signed", Some _ => inr (decode body)
       | _, _ => inl "No signatures found matching the expected signature"
       end;
     subscriptions_retrieve := fun subs id =>
       match id with
       | Js.str i =>
           option_map snd (find (fun s => String.eqb (fst s) i) subs)
       | _ => None
       end;
     subscriptions_update := fun subs id deviceId =>
       match id, deviceId with
       | Js.str i, Js.str d =>
           if existsb (fun s => String.eqb (fst s) i) subs
           then Some (map (fun s => if String.eqb (fst s) i
                                    then (fst s, set_device d (snd s))
                                    else s) subs)
           else None
       | _, _ => None
       end;
     bind_undefined := None |}.

Definition signed (body : string) : @request :=
  {| body := body; stripe_signature := Some "signed" |}.

Definition unsigned (body : string) : @request :=
  {| body := body; stripe_signature := None |}.

(** The record of the specification's example, in a table without the
    [trial] column. *)
Definition row_abc : Db.row :=
  {| Db.deviceId := Db.TEXT "abc"; Db.plan := Db.TEXT "monthly";
     Db.status := Db.TEXT "trialing"; Db.trial := Db.NULL;
     Db.expiresAt := Db.INTEGER 1700000000000;
     Db.customerId := Db.TEXT "cus_1" |}.

Definition world_abc : @world collaborators :=
  {| db := {| Db.trial_column := false; Db.rows := [row_abc] |};
     stripe := ([("sub_1", sub_1 abc)] : @processor collaborators) |}.

(** The same record in the table that db.js creates, where every row
    has a [trial]. *)
Definition world_trial : @world collaborators :=
  {| db := {| Db.trial_column := true;
              Db.rows := [{| Db.deviceId := Db.TEXT "abc";
                             Db.plan := Db.TEXT "monthly";
                             Db.status := Db.TEXT "trialing";
                             Db.trial := Db.INTEGER 1;
                             Db.expiresAt := Db.INTEGER 1700000000000;
                             Db.customerId := Db.TEXT "cus_1" |}] |};
     stripe := ([("sub_1", sub_1 abc)] : @processor collaborators) |}.

(** A database that db.js has just created. *)
Definition fresh : @world collaborators :=
  {| db := Db.open None;
     stripe := ([("sub_1", sub_1 abc)] : @processor collaborators) |}.

End Demo.

(* ================================================================= *)
(** ** The vocabulary of the specification *)

Section Vocabulary.

Context {C : Collaborators}.

(** The request passes signature verification and decodes to [event]. *)
Definition verified (req : request) (event : Stripe.Event) : Prop :=
  constructEvent (body req) (stripe_signature req) STRIPE_WEBHOOK_SECRET
  = inr event.

(** Signature verification fails. *)
Definition unverifiable (req : request) : Prop :=
  exists message,
    constructEvent (body req) (stripe_signature req) STRIPE_WEBHOOK_SECRET
    = inl message.

(** The entitlement record of a device. *)
Definition record (deviceId : string) (w : world) : option Db.row :=
  Db.get (Db.TEXT deviceId) (db w).

(** The acknowledgment [200 { received: true }]. *)
Definition acknowledged (o : Js.outcome) : Prop :=
  o = Js.Responded received.

(** A rejection: a 4xx answer. *)
Definition rejected (o : Js.outcome) : Prop :=
  exists code text,
    o = Js.Responded (Js.Send code text) /\ 400 <= code < 500.

(** The [deviceId] a metadata object carries; an empty one counts as
    none. *)
Definition device_of (metadata : option Stripe.Metadata) : option string :=
  match metadata with
  | Some m =>
      match Stripe.lookup "deviceId" m with
      | Some d => if String.eqb d "" then None else Some d
      | None => None
      end
  | None => None
  end.

(** The device an event is linked to: the [deviceId] of the metadata of
    its session or subscription and, for an invoice, of the
    subscription it references, as Stripe returns it.  [None] when
    there is none, or when Stripe does not return the subscription. *)
Definition linked_device (w : world) (event : Stripe.Event) : option string :=
  match event with
  | Stripe.checkout_session_completed session =>
      device_of (Stripe.session_metadata session)
  | Stripe.customer_subscription_created sub
  | Stripe.customer_subscription_updated sub
  | Stripe.customer_subscription_deleted sub =>
      device_of (Some (Stripe.metadata sub))
  | Stripe.invoice_payment_failed invoice =>
      match Stripe.invoice_subscription invoice with
      | Some id =>
          if String.eqb id "" then None
          else
            match subscriptions_retrieve (stripe w) (Js.str id) with
            | Some sub => device_of (Some (Stripe.metadata sub))
            | None => None
            end
      | None => None
      end
  | Stripe.other _ => None
  end.

(** The event types the webhook has a branch for. *)
Definition recognized (event : Stripe.Event) : Prop :=
  match event with
  | Stripe.other _ => False
  | _ => True
  end.

(** *** The event-to-state mapping of the specification *)

(** [expiresAt]: the trial end in milliseconds, NULL when there is
    none. *)
Definition expires_at (trial_end : option Z) : Db.value :=
  match trial_end with
  | Some t => if Z.eqb t 0 then Db.NULL else Db.INTEGER (t * 1000)
  | None => Db.NULL
  end.

(** The plan of a subscription: yearly if its billing interval is
    "year", else monthly; none when its first item has no recurring
    price. *)
Definition interval_plan (sub : Stripe.Subscription) : option string :=
  match Stripe.items sub with
  | item :: _ =>
      match Stripe.recurring (Stripe.price item) with
      | Some r => Some (if String.eqb (Stripe.interval r) "year"
                        then "yearly" else "monthly")
      | None => None
      end
  | [] => None
  end.

(** The row of a device with the plan, status, expiry and customer of a
    subscription. *)
Definition entitlement (deviceId plan : string) (sub : Stripe.Subscription)
  : Db.row :=
  Db.five_columns (Db.TEXT deviceId) (Db.TEXT plan)
    (Db.TEXT (Stripe.status sub)) (expires_at (Stripe.trial_end sub))
    (Db.TEXT (Stripe.customer sub)).

(** The row a subscription created or updated event stands for, when
    it is linked to a device. *)
Definition subscription_row (sub : Stripe.Subscription) : option Db.row :=
  match device_of (Some (Stripe.metadata sub)), interval_plan sub with
  | Some d, Some p => Some (entitlement d p sub)
  | _, _ => None
  end.

(** Upserting a row, if any; a statement that fails leaves the store
    as it is. *)
Definition store (on_conflict : Db.row -> Db.row -> Db.row)
    (x : option Db.row) (w : world) : world :=
  match x with
  | Some x =>
      match Db.insert_on_conflict on_conflict x (db w) with
      | Some d => with_db w d
      | None => w
      end
  | None => w
  end.

(** Rewriting the rows of a device, likewise. *)
Definition amend (assigned_not_null : bool) (set : Db.row -> Db.row)
    (deviceId : option string) (w : world) : world :=
  match deviceId with
  | Some d =>
      match Db.update_where assigned_not_null set (Db.TEXT d) (db w) with
      | Some d' => with_db w d'
      | None => w
      end
  | None => w
  end.

(** A checkout session and a subscription event describe the same
    subscription: same device, the plan of the session is the one of
    the billing interval, the session names the customer of the
    subscription, and what Stripe returns for the subscription of the
    session has the status, trial end and customer of the event. *)
Definition same_subscription (w : world) (session : Stripe.Session)
    (sub : Stripe.Subscription) : Prop :=
  (exists d, device_of (Stripe.session_metadata session) = Some d
             /\ device_of (Some (Stripe.metadata sub)) = Some d)
  /\ (exists p, field (Stripe.session_metadata session) "plan" = Js.str p
                /\ interval_plan sub = Some p)
  /\ Stripe.session_customer session = Some (Stripe.customer sub)
  /\ (forall sub',
        subscriptions_retrieve (stripe w)
          (Js.of_string (Stripe.subscription session) Js.null) = Some sub' ->
        Stripe.status sub' = Stripe.status sub
        /\ Stripe.trial_end sub' = Stripe.trial_end sub
        /\ Stripe.customer sub' = Stripe.customer sub).

(** [r'] is [r] after a soft reset: free, inactive, no expiry, the
    same customer. *)
Definition soft_reset (r r' : Db.row) : Prop :=
  Db.plan r' = Db.TEXT "free"
  /\ Db.status r' = Db.TEXT "inactive"
  /\ Db.expiresAt r' = Db.NULL
  /\ Db.customerId r' = Db.customerId r.

(** [r'] is [r] with its status set to inactive and nothing else
    changed. *)
Definition only_inactive (r r' : Db.row) : Prop :=
  Db.status r' = Db.TEXT "inactive"
  /\ Db.plan r' = Db.plan r
  /\ Db.expiresAt r' = Db.expiresAt r
  /\ Db.customerId r' = Db.customerId r.

(** The events whose branch is an UPDATE statement. *)
Definition update_only (event : Stripe.Event) : Prop :=
  match event with
  | Stripe.invoice_payment_failed _
  | Stripe.customer_subscription_deleted _ => True
  | _ => False
  end.

(** What one delivery of an event can do to the table: nothing, an
    upsert that names a customer (checkout completed, subscription
    created or updated), or a rewrite of rows that keeps their key and
    their customer. *)
Definition upserting (event : Stripe.Event) : Prop :=
  match event with
  | Stripe.checkout_session_completed _
  | Stripe.customer_subscription_created _
  | Stripe.customer_subscription_updated _ => True
  | _ => False
  end.

Inductive delivers (event : Stripe.Event) (d : Db.database)
  : Db.database -> Prop :=
| delivers_nothing : delivers event d d
| delivers_upsert x d' :
    upserting event ->
    Db.is_null (Db.customerId x) = false ->
    Db.insert_on_conflict Db.set_all x d = Some d' ->
    delivers event d d'
| delivers_rewrite k set :
    Db.keeps_key set ->
    (forall r, Db.customerId (set r) = Db.customerId r) ->
    delivers event d (Db.with_rows d (Db.replace k set (Db.rows d))).

End Vocabulary.

Arguments device_of : simpl never.
Arguments store : simpl never.
Arguments amend : simpl never.

(** Unfolding the statements of a handler down to the calls of the
    collaborators and the statements on the table. *)
Ltac run :=
  unfold run_insert, run_set_inactive, run_set_free,
    run_set_plan_status_expires, select, strict_field in *;
  unfold handle, try_catch, bind, param, exec, retrieve, update in *;
  simpl;
  unfold ret, throw, return_, skip in *; simpl.

(* ================================================================= *)
(** ** The session routes: checkout and billing portal *)

Module Body.

(** A value of a JSON request body. *)
#[warnings="-register-all"] Inductive value : Type :=
| Null
| Bool (b : bool)
| Num (n : Z)
| Str (s : string)
| Arr (items : list value)
| Obj (fields : list (string * value)).

(** [req.body] after [express.json()]: an object. *)
Definition object : Type := list (string * value).

(** [body.key]; [None] is [undefined]. *)
Fixpoint get (key : string) (body : object) : option value :=
  match body with
  | [] => None
  | (k, v) :: body' => if String.eqb k key then Some v else get key body'
  end.

(** [!v] is false exactly on a truthy [v]. *)
Definition truthy (v : option value) : bool :=
  match v with
  | None | Some Null => false
  | Some (Bool b) => b
  | Some (Num n) => negb (Z.eqb n 0)
  | Some (Str s) => negb (String.eqb s "")
  | Some (Arr _) | Some (Obj _) => true
  end.

(** [v === s] for a string literal [s]. *)
Definition equals (s : string) (v : option value) : bool :=
  match v with
  | Some (Str t) => String.eqb t s
  | _ => false
  end.

(** [["monthly", "yearly"].includes(v)] *)
Definition monthly_or_yearly (v : option value) : bool :=
  equals "monthly" v || equals "yearly" v.

End Body.

(** The arguments of [stripe.checkout.sessions.create] and of
    [stripe.billingPortal.sessions.create] as the routes build them. *)
Record CheckoutParams : Type := {
  mode : string;
  line_item_price : string;
  line_item_quantity : Z;
  trial_period_days : Z;
  subscription_metadata_deviceId : option Body.value;
  success_url : string;
  cancel_url : string;
  metadata_deviceId : option Body.value;
  metadata_plan : option Body.value
}.

Record PortalParams : Type := {
  portal_customer : Db.value;
  return_url : string
}.

(** The session calls of the Stripe SDK, on the same Stripe side, and
    what the binder and the comparison with the text key make of a
    parameter that is neither a string nor null ([None]: the statement
    throws). *)
Class Sessions {C : Collaborators} : Type := {
  (** [stripe.checkout.sessions.create(params)]: [session.url], which
      the API may leave null. *)
  checkout_sessions_create :
    processor -> CheckoutParams -> option (option string * processor);
  (** [stripe.billingPortal.sessions.create(params)]:
      [portalSession.url]. *)
  billingPortal_sessions_create :
    processor -> PortalParams -> option (string * processor);
  bind_other : Body.value -> option Db.value
}.

Section Routes.

Context {C : Collaborators} {S : Sessions}.

(** [await stripe.checkout.sessions.create(params)] *)
Definition checkout_create (params : CheckoutParams) : M (option string) :=
  fun w =>
    match checkout_sessions_create (stripe w) params with
    | Some (url, p) => (Js.Normal url, with_stripe w p)
    | None => (Js.Throw Js.StripeError, w)
    end.

(** [await stripe.billingPortal.sessions.create(params)] *)
Definition portal_create (params : PortalParams) : M string :=
  fun w =>
    match billingPortal_sessions_create (stripe w) params with
    | Some (url, p) => (Js.Normal url, with_stripe w p)
    | None => (Js.Throw Js.StripeError, w)
    end.

(** A value of the request body as a parameter of a statement. *)
Definition bound_body (v : option Body.value) : option Db.value :=
  match v with
  | None => bind_undefined
  | Some Body.Null => Some Db.NULL
  | Some (Body.Str s) => Some (Db.TEXT s)
  | Some other => bind_other other
  end.

(** [db.prepare("SELECT customerId FROM subscriptions WHERE deviceId =
    ?").get(deviceId)]; the row has the one column [customerId]. *)
Definition select_customer (deviceId : option Body.value)
  : M (option Db.value) :=
  fun w =>
    match bound_body deviceId with
    | Some k => (Js.Normal (option_map Db.customerId (Db.get k (db w))), w)
    | None => (Js.Throw Js.TypeError, w)
    end.

(** [!row?.customerId] is false exactly when there is a row and its
    [customerId] is truthy. *)
Definition has_customer (row : option Db.value) : bool :=
  match row with
  | Some (Db.TEXT s) => negb (String.eqb s "")
  | Some (Db.INTEGER n) => negb (Z.eqb n 0)
  | Some Db.NULL | None => false
  end.

(** [plan === "yearly" ? "price_1Sjtj10V3msArFU1pteEpDbb"
                       : "price_1Sk8Y50V3msArFU1a5GYycxV"] *)
Definition priceId (plan : option Body.value) : string :=
  if Body.equals "yearly" plan
  then "price_1Sjtj10V3msArFU1pteEpDbb"
  else "price_1Sk8Y50V3msArFU1a5GYycxV".

(** The object both versions pass to [stripe.checkout.sessions.create]
    ([TRIAL_DAYS] is 7 in part_000, the literal 7 in server.js). *)
Definition checkout_params (plan deviceId : option Body.value)
  : CheckoutParams :=
  {| mode := "subscription";
     line_item_price := priceId plan;
     line_item_quantity := 1;
     trial_period_days := 7;
     subscription_metadata_deviceId := deviceId;
     success_url := "eyebalance://success";
     cancel_url := "eyebalance://cancel";
     metadata_deviceId := deviceId;
     metadata_plan := plan |}.

Definition url_json (url : option string) : Js.json :=
  match url with
  | Some u => Js.JStr u
  | None => Js.JNull
  end.

Definition error_body (message : string) : list (string * Js.json) :=
  [("error", Js.JStr message)].

End Routes.

Arguments checkout_params : simpl never.

Module ServerRoutes.
Section ServerRoutes.

Context {C : Collaborators} {S : Sessions}.

(** [app.post("/create-checkout-session", async (req, res) => { try
    { ... } catch (err) { res.status(500).json({ error: "Checkout
    failed" }) } })] *)
Definition create_checkout_session (body : Body.object)
  : world -> Js.outcome * world :=
  handle
    (try_catch
       (let plan := Body.get "plan" body in
        let deviceId := Body.get "deviceId" body in
        if negb (Body.truthy deviceId) || negb (Body.monthly_or_yearly plan)
        then return_ (Js.Json 400 (error_body "Invalid checkout request"))
        else
          url <- checkout_create (checkout_params plan deviceId) ;;
          return_ (Js.Json 200 [("url", url_json url)]))
       (fun err => return_ (Js.Json 500 (error_body "Checkout failed")))).

(** [app.post("/create-portal-session", async (req, res) => { try
    { ... } catch (err) { res.status(500).json({ error: "Portal
    unavailable" }) } })] *)
Definition create_portal_session (body : Body.object)
  : world -> Js.outcome * world :=
  handle
    (try_catch
       (let deviceId := Body.get "deviceId" body in
        row <- select_customer deviceId ;;
        if negb (has_customer row)
        then return_ (Js.Json 400 (error_body "No customer found"))
        else
          match row with
          | Some customerId =>
              url <- portal_create
                       {| portal_customer := customerId;
                          return_url := "eyebalance://subscription" |} ;;
              return_ (Js.Json 200 [("url", Js.JStr url)])
          | None => throw Js.TypeError
          end)
       (fun err => return_ (Js.Json 500 (error_body "Portal unavailable")))).

End ServerRoutes.
End ServerRoutes.

Module Part000Routes.
Section Part000Routes.

Context {C : Collaborators} {S : Sessions}.

(** [app.post("/create-checkout-session", async (req, res) =>
    { ... })] *)
Definition create_checkout_session (body : Body.object)
  : world -> Js.outcome * world :=
  handle
    (let plan := Body.get "plan" body in
     let deviceId := Body.get "deviceId" body in
     if negb (Body.truthy deviceId) || negb (Body.monthly_or_yearly plan)
     then return_ (Js.Json 400 (error_body "Invalid checkout request"))
     else
       url <- checkout_create (checkout_params plan deviceId) ;;
       return_ (Js.Json 200 [("url", url_json url)])).

(** [app.post("/create-portal-session", async (req, res) => { ... })] *)
Definition create_portal_session (body : Body.object)
  : world -> Js.outcome * world :=
  handle
    (let deviceId := Body.get "deviceId" body in
     row <- select_customer deviceId ;;
     if negb (has_customer row)
     then return_ (Js.Json 400 (error_body "No customer found"))
     else
       match row with
       | Some customerId =>
           url <- portal_create
                    {| portal_customer := customerId;
                       return_url := "eyebalance://subscription" |} ;;
           return_ (Js.Json 200 [("url", Js.JStr url)])
       | None => throw Js.TypeError
       end).

End Part000Routes.
End Part000Routes.

(** A concrete Stripe for the session routes: checkout sessions can be
    created as long as Stripe knows a subscription (an empty Stripe
    side stands for an outage), portal sessions for the customer
    [cus_1] only; a statement takes strings and null only. *)
Module DemoSessions.

Definition sessions : @Sessions Demo.collaborators :=
  {| checkout_sessions_create :=
       fun (subs : @processor Demo.collaborators) params =>
       match (subs : list (string * Stripe.Subscription)) with
       | [] => None
       | _ => Some (Some ("https://checkout.stripe.com/"
                            ++ line_item_price params), subs)
       end;
     billingPortal_sessions_create :=
       fun (subs : @processor Demo.collaborators) params =>
       match portal_customer params with
       | Db.TEXT c =>
           if String.eqb c "cus_1"
           then Some ("https://billing.stripe.com/" ++ c, subs)
           else None
       | _ => None
       end;
     bind_other := fun _ => None |}.

(** The world of the example while Stripe is out. *)
Definition outage : @world Demo.collaborators :=
  {| db := db Demo.world_abc;
     stripe := ([] : @processor Demo.collaborators) |}.

(** An empty table of five columns. *)
Definition empty : @world Demo.collaborators :=
  with_db Demo.world_abc {| Db.trial_column := false; Db.rows := [] |}.

Definition yearly_for_abc : Body.object :=
  [("plan", Body.Str "yearly"); ("deviceId", Body.Str "abc")].

Definition monthly_for_abc : Body.object :=
  [("plan", Body.Str "monthly"); ("deviceId", Body.Str "abc")].

Definition device (d : string) : Body.object := [("deviceId", Body.Str d)].

End DemoSessions.

(* ================================================================= *)
(** ** More vocabulary *)

(** The constraints of the table, with the keys the server writes:
    every row has a key, no two rows share one, [plan] and [status]
    (and [trial], where the table has it) are not NULL. *)
Definition constrained (d : Db.database) : Prop :=
  NoDup (map Db.deviceId (Db.rows d))
  /\ Forall (fun r => Db.is_null (Db.deviceId r) = false
                      /\ Db.not_null d r = true) (Db.rows d).

(** The events other than a completed checkout. *)
Definition not_checkout (event : Stripe.Event) : Prop :=
  match event with
  | Stripe.checkout_session_completed _ => False
  | _ => True
  end.

(** The body of the status answer for a plan, a status and an expiry. *)
Definition status_body (plan status expiresAt : Js.json)
  : list (string * Js.json) :=
  [("plan", plan); ("status", status); ("expiresAt", expiresAt)].

(** Splitting a goal along the control flow of a handler, innermost
    test first. *)
Ltac branch :=
  match goal with
  | |- context [match ?x with _ => _ end] =>
      lazymatch x with
      | context [match _ with _ => _ end] => fail
      | _ => destruct x eqn:?
      end
  end.

(** Unfolding a session route down to the calls of Stripe and the
    statement on the table. *)
Ltac routes :=
  unfold ServerRoutes.create_checkout_session,
    ServerRoutes.create_portal_session,
    Part000Routes.create_checkout_session,
    Part000Routes.create_portal_session,
    checkout_create, portal_create, select_customer in *;
  run.

(* ================================================================= *)
(** ** Facts about the table *)

Section TableFacts.

Import Db.

Lemma sql_eq_true (a b : value) : sql_eq a b = true -> a = b.
Proof.
  destruct a, b; simpl; try discriminate.
  - intros H. apply Z.eqb_eq in H. now subst.
  - intros H. apply String.eqb_eq in H. now subst.
Qed.

Lemma sql_eq_text (s : string) : sql_eq (TEXT s) (TEXT s) = true.
Proof. simpl. apply String.eqb_refl. Qed.

Lemma keeps_key_set_inactive : keeps_key set_inactive.
Proof. now intros r. Qed.

Lemma keeps_key_set_free : keeps_key set_free.
Proof. now intros r. Qed.

Lemma keeps_key_set_plan_status_expires p s e :
  keeps_key (set_plan_status_expires p s e).
Proof. now intros r. Qed.

Lemma keeps_key_set_all x : keeps_key (fun old => set_all old x).
Proof. now intros r. Qed.

Lemma matches_keeps_key set k r :
  keeps_key set -> matches k (set r) = matches k r.
Proof. intros H. unfold matches. now rewrite H. Qed.

Lemma length_replace k set rs : length (replace k set rs) = length rs.
Proof. apply length_map. Qed.

Lemma existsb_replace k k' set rs :
  keeps_key set ->
  existsb (matches k') (replace k set rs) = existsb (matches k') rs.
Proof.
  intros H. induction rs as [|r rs IH]; simpl; auto.
  rewrite IH. f_equal.
  destruct (matches k r); auto using matches_keeps_key.
Qed.

(** Looking a key up after a rewrite: the row found is the rewritten
    one. *)
Lemma find_replace k k' set rs :
  keeps_key set ->
  find (matches k') (replace k set rs)
  = option_map (fun r => if matches k r then set r else r)
      (find (matches k') rs).
Proof.
  intros H. induction rs as [|r rs IH]; simpl; auto.
  destruct (matches k r) eqn:Hk.
  - rewrite matches_keeps_key by assumption.
    destruct (matches k' r); simpl; auto. now rewrite Hk.
  - destruct (matches k' r); simpl; auto. now rewrite Hk.
Qed.

Lemma replace_replace k set1 set2 rs :
  keeps_key set1 ->
  replace k set2 (replace k set1 rs)
  = replace k (fun r => set2 (set1 r)) rs.
Proof.
  intros H. unfold replace. rewrite map_map. apply map_ext.
  intros r. destruct (matches k r) eqn:Hk.
  - now rewrite matches_keeps_key, Hk.
  - now rewrite Hk.
Qed.

Lemma replace_ext k set1 set2 rs :
  (forall r, set1 r = set2 r) -> replace k set1 rs = replace k set2 rs.
Proof.
  intros H. apply map_ext. intros r. now rewrite H.
Qed.

Lemma replace_none k set rs :
  existsb (matches k) rs = false -> replace k set rs = rs.
Proof.
  induction rs as [|r rs IH]; simpl; auto.
  intros H. apply orb_false_iff in H as [Hr Hrs].
  rewrite Hr. f_equal. auto.
Qed.

(** *** UPDATE *)

(** An UPDATE whose setter is idempotent changes nothing the second
    time, and fails the second time if it failed the first. *)
Lemma update_where_twice b set k d :
  keeps_key set -> (forall r, set (set r) = set r) ->
  match update_where b set k d with
  | Some d' => update_where b set k d' = Some d'
  | None => True
  end.
Proof.
  intros Hk Hs. unfold update_where.
  destruct (b || negb (existsb (matches k) (rows d))) eqn:Hb; [|exact I].
  simpl. rewrite existsb_replace by assumption. rewrite Hb.
  unfold with_rows. simpl. f_equal. f_equal.
  rewrite replace_replace by assumption. now apply replace_ext.
Qed.

(** *** INSERT ... ON CONFLICT *)

(** Whether the statement fails depends on the row and on the columns
    of the table only. *)
Lemma insert_fails oc x d :
  insert_on_conflict oc x d = None <-> not_null d x = false.
Proof.
  unfold insert_on_conflict.
  destruct (not_null d x); [|tauto].
  destruct (existsb _ _); split; discriminate.
Qed.

(** A table created by db.js refuses every five-column INSERT: the
    [trial] column is NOT NULL, has no default and is not named. *)
Lemma insert_five_columns_trial oc k p s e c d :
  trial_column d = true ->
  insert_on_conflict oc (five_columns k p s e c) d = None.
Proof.
  intros H. apply insert_fails. unfold not_null. rewrite H. simpl.
  now rewrite andb_false_r.
Qed.

Lemma settles_set_all x : settles set_all x.
Proof. now destruct x. Qed.

Lemma settles_set_plan_status_customer x :
  settles set_plan_status_customer x.
Proof. now destruct x. Qed.

(** After [x] has been upserted with [oc1], upserting [x] again with
    [oc2] gives the table in which every row with the key went through
    both clauses. *)
Lemma insert_insert oc1 oc2 x d d1 :
  sql_eq (deviceId x) (deviceId x) = true ->
  settles oc2 x ->
  keeps_key (fun old => oc1 old x) ->
  insert_on_conflict oc1 x d = Some d1 ->
  insert_on_conflict oc2 x d1
  = Some (with_rows d
            (if existsb (matches (deviceId x)) (rows d)
             then replace (deviceId x) (fun old => oc2 (oc1 old x) x) (rows d)
             else rows d ++ [x])).
Proof.
  intros Hkey Hx Hk H. unfold insert_on_conflict in *.
  destruct (not_null d x) eqn:Hn; [|discriminate].
  destruct (existsb (matches (deviceId x)) (rows d)) eqn:He;
    injection H as <-.
  - unfold not_null in *. simpl. rewrite Hn.
    rewrite existsb_replace, He by assumption.
    unfold with_rows. simpl. now rewrite replace_replace.
  - unfold not_null in *. simpl. rewrite Hn.
    rewrite existsb_app. simpl. unfold matches at 2. rewrite Hkey.
    rewrite orb_true_r. unfold with_rows. simpl. f_equal. f_equal.
    unfold replace. rewrite map_app. simpl.
    unfold matches at 2. rewrite Hkey, Hx. f_equal.
    now apply replace_none.
Qed.

End TableFacts.

(* ================================================================= *)
(** ** The handlers, branch by branch *)

Section Reconciliation.

Context {C : Collaborators}.

Lemma bound_milliseconds te : bound (milliseconds te) = Some (expires_at te).
Proof.
  unfold milliseconds, expires_at. destruct te as [t|]; [|reflexivity].
  simpl. now destruct (Z.eqb t 0).
Qed.

Lemma field_device m d :
  device_of m = Some d -> field m "deviceId" = Js.str d.
Proof.
  unfold device_of, field. destruct m as [m|]; [|discriminate].
  destruct (Stripe.lookup "deviceId" m) as [x|]; [|discriminate].
  destruct (String.eqb x ""); [discriminate|]. now intros [= ->].
Qed.

Lemma truthy_device m :
  Js.truthy (field m "deviceId")
  = match device_of m with Some _ => true | None => false end.
Proof.
  unfold device_of, field. destruct m as [m|]; [|reflexivity].
  destruct (Stripe.lookup "deviceId" m) as [x|]; [|reflexivity].
  simpl. now destruct (String.eqb x "").
Qed.

Lemma plan_of_interval sub :
  plan_of sub = match interval_plan sub with
                | Some p => ret (Js.str p)
                | None => throw Js.TypeError
                end.
Proof.
  unfold plan_of, interval_plan. destruct (Stripe.items sub); [reflexivity|].
  now destruct (Stripe.recurring _).
Qed.

(** *** server.js, branch by branch *)

(** The block of the subscription events stores the row of the
    subscription, or nothing, and every way out of it is
    acknowledged. *)
Lemma Server_subscription_upsert sub w :
  handle (try_catch (Server.subscription_upsert sub ;; return_ received)
            (fun _ => return_ received)) w
  = (Js.Responded received, store Db.set_all (subscription_row sub) w).
Proof.
  unfold Server.subscription_upsert, subscription_row, store.
  rewrite truthy_device, plan_of_interval.
  destruct (device_of _) as [d|] eqn:Hd;
    [rewrite (field_device _ _ Hd)|]; simpl; [|reflexivity].
  destruct (interval_plan sub) as [p|]; [|reflexivity].
  run. rewrite bound_milliseconds. simpl. unfold entitlement.
  now destruct (Db.insert_on_conflict _ _ _).
Qed.

Lemma webhook_verified req event w :
  verified req event ->
  Server.verified_event req w = (Js.Normal event, w).
Proof.
  unfold verified, Server.verified_event. intros H. run. now rewrite H.
Qed.

Lemma Server_subscription_event req sub w event :
  verified req event ->
  event = Stripe.customer_subscription_created sub
  \/ event = Stripe.customer_subscription_updated sub ->
  Server.webhook req w
  = (Js.Responded received, store Db.set_all (subscription_row sub) w).
Proof.
  intros Hv He. rewrite <- Server_subscription_upsert.
  unfold Server.webhook, handle, try_catch, bind at 1.
  rewrite (webhook_verified _ _ _ Hv).
  destruct He as [-> | ->]; simpl; run; simpl;
    destruct (Server.subscription_upsert sub w) as [[[]|r|e] w']; reflexivity.
Qed.

(** A deleted event resets the rows of the linked device. *)
Lemma Server_deleted req sub w :
  verified req (Stripe.customer_subscription_deleted sub) ->
  Server.webhook req w
  = (Js.Responded received,
     amend true Db.set_free (device_of (Some (Stripe.metadata sub))) w).
Proof.
  intros Hv. unfold Server.webhook, handle, try_catch, bind at 1.
  rewrite (webhook_verified _ _ _ Hv). simpl.
  rewrite truthy_device. unfold amend.
  destruct (device_of _) as [d|] eqn:Hd;
    [rewrite (field_device _ _ Hd)|]; reflexivity.
Qed.

(** A payment failure sets the rows of the linked device inactive. *)
Lemma Server_payment_failed req invoice w :
  verified req (Stripe.invoice_payment_failed invoice) ->
  Server.webhook req w
  = (Js.Responded received,
     amend true Db.set_inactive
       (linked_device w (Stripe.invoice_payment_failed invoice)) w).
Proof.
  intros Hv. unfold Server.webhook, handle, try_catch, bind at 1.
  rewrite (webhook_verified _ _ _ Hv). simpl.
  destruct (Stripe.invoice_subscription invoice) as [id|]; simpl;
    [|reflexivity].
  destruct (String.eqb id ""); simpl; [reflexivity|].
  run. simpl.
  destruct (subscriptions_retrieve (stripe w) (Js.str id)) as [sub|]; simpl;
    [|reflexivity].
  rewrite truthy_device. unfold amend.
  destruct (device_of _) as [d|] eqn:Hd;
    [rewrite (field_device _ _ Hd)|]; reflexivity.
Qed.

Lemma Server_other req type w :
  verified req (Stripe.other type) ->
  Server.webhook req w = (Js.Responded received, w).
Proof.
  intros Hv. unfold Server.webhook, handle, try_catch, bind at 1.
  now rewrite (webhook_verified _ _ _ Hv).
Qed.

(** A checkout looks the subscription up, tags it with the device on
    Stripe's side and stores the row; a failure at any step leaves the
    table as it is. *)
Lemma Server_checkout req session w :
  verified req (Stripe.checkout_session_completed session) ->
  Server.webhook req w
  = (Js.Responded received,
     match device_of (Stripe.session_metadata session),
           Stripe.subscription session with
     | Some d, Some id =>
         if String.eqb id "" then w
         else
           match subscriptions_retrieve (stripe w) (Js.str id) with
           | Some sub =>
               match subscriptions_update (stripe w) (Js.str id) (Js.str d) with
               | Some p =>
                   store Db.set_all
                     (option_map
                        (fun plan =>
                           Db.five_columns (Db.TEXT d) plan
                             (Db.TEXT (Stripe.status sub))
                             (expires_at (Stripe.trial_end sub))
                             (Db.TEXT (Stripe.customer sub)))
                        (bound (field (Stripe.session_metadata session) "plan")))
                     (with_stripe w p)
               | None => w
               end
           | None => w
           end
     | _, _ => w
     end).
Proof.
  intros Hv. unfold Server.webhook, handle, try_catch, bind at 1.
  rewrite (webhook_verified _ _ _ Hv). simpl.
  rewrite truthy_device.
  destruct (device_of _) as [d|] eqn:Hd;
    [rewrite (field_device _ _ Hd)|]; simpl; [|reflexivity].
  destruct (Stripe.subscription session) as [id|]; simpl; [|reflexivity].
  destruct (String.eqb id ""); simpl; [reflexivity|].
  run. simpl.
  destruct (subscriptions_retrieve (stripe w) (Js.str id)) as [sub|];
    [|reflexivity].
  destruct (subscriptions_update (stripe w) (Js.str id) (Js.str d)) as [p|];
    [|reflexivity].
  unfold store.
  destruct (bound (field _ "plan")) as [plan|]; simpl; [|reflexivity].
  rewrite bound_milliseconds.
  now destruct (Db.insert_on_conflict _ _ _).
Qed.

(** After signature verification server.js always acknowledges. *)
Lemma Server_acknowledges req event w :
  verified req event -> acknowledged (fst (Server.webhook req w)).
Proof.
  intros Hv. unfold acknowledged. destruct event.
  - now rewrite (Server_checkout _ _ _ Hv).
  - now rewrite (Server_subscription_event _ sub w _ Hv) by auto.
  - now rewrite (Server_subscription_event _ sub w _ Hv) by auto.
  - now rewrite (Server_payment_failed _ _ _ Hv).
  - now rewrite (Server_deleted _ _ _ Hv).
  - now rewrite (Server_other _ _ _ Hv).
Qed.

(** *** part_000, branch by branch *)

Lemma variant_verified req event w :
  verified req event ->
  Part000.verified_event req w = (Js.Normal event, w).
Proof.
  unfold verified, Part000.verified_event. intros H. run. now rewrite H.
Qed.

(** The created branch stores the row without touching the expiry of
    a row that is already there. *)
Lemma Part000_created req sub w :
  verified req (Stripe.customer_subscription_created sub) ->
  snd (Part000.webhook req w)
  = store Db.set_plan_status_customer (subscription_row sub) w.
Proof.
  intros Hv. unfold Part000.webhook, handle, bind at 1.
  rewrite (variant_verified _ _ _ Hv). simpl.
  unfold subscription_row, store.
  rewrite truthy_device, plan_of_interval.
  destruct (device_of _) as [d|] eqn:Hd;
    [rewrite (field_device _ _ Hd)|]; simpl; [|reflexivity].
  destruct (interval_plan sub) as [p|]; [|reflexivity].
  run. rewrite bound_milliseconds. simpl. unfold entitlement.
  now destruct (Db.insert_on_conflict _ _ _).
Qed.

(** The updated branch rewrites plan, status and expiry of the rows of
    the linked device; a subscription without a billing interval makes
    the handler throw. *)
Lemma Part000_updated req sub w :
  verified req (Stripe.customer_subscription_updated sub) ->
  Part000.webhook req w
  = (match device_of (Some (Stripe.metadata sub)), interval_plan sub with
     | Some _, None => Js.Unhandled Js.TypeError
     | _, _ => Js.Responded received
     end,
     match subscription_row sub with
     | Some x =>
         amend true
           (Db.set_plan_status_expires (Db.plan x) (Db.status x) (Db.expiresAt x))
           (device_of (Some (Stripe.metadata sub))) w
     | None => w
     end).
Proof.
  intros Hv. unfold Part000.webhook, handle, bind at 1.
  rewrite (variant_verified _ _ _ Hv). simpl.
  unfold subscription_row, amend.
  rewrite truthy_device, plan_of_interval.
  destruct (device_of _) as [d|] eqn:Hd;
    [rewrite (field_device _ _ Hd)|]; simpl.
  - destruct (interval_plan sub) as [p|]; [|reflexivity].
    run. now rewrite bound_milliseconds.
  - now destruct (interval_plan sub).
Qed.

Lemma Part000_deleted req sub w d :
  verified req (Stripe.customer_subscription_deleted sub) ->
  device_of (Some (Stripe.metadata sub)) = Some d ->
  Part000.webhook req w
  = (Js.Responded received, amend true Db.set_free (Some d) w).
Proof.
  intros Hv Hd. unfold Part000.webhook, handle, bind at 1.
  rewrite (variant_verified _ _ _ Hv). simpl.
  now rewrite (field_device _ _ Hd).
Qed.

Lemma metadata_of_device m d : device_of m = Some d -> exists m', m = Some m'.
Proof. destruct m as [m'|]; [eauto | discriminate]. Qed.

Lemma Part000_checkout req session w d p c :
  verified req (Stripe.checkout_session_completed session) ->
  device_of (Stripe.session_metadata session) = Some d ->
  field (Stripe.session_metadata session) "plan" = Js.str p ->
  Stripe.session_customer session = Some c ->
  snd (Part000.webhook req w)
  = match subscriptions_retrieve (stripe w)
            (Js.of_string (Stripe.subscription session) Js.null) with
    | Some sub =>
        match subscriptions_update (stripe w)
                (Js.of_string (Stripe.subscription session) Js.null)
                (Js.str d) with
        | Some st =>
            store Db.set_all
              (Some (Db.five_columns (Db.TEXT d) (Db.TEXT p)
                       (Db.TEXT (Stripe.status sub))
                       (expires_at (Stripe.trial_end sub)) (Db.TEXT c)))
              (with_stripe w st)
        | None => w
        end
    | None => w
    end.
Proof.
  intros Hv Hd Hp Hc. unfold Part000.webhook, handle, bind at 1.
  rewrite (variant_verified _ _ _ Hv). simpl.
  pose proof (field_device _ _ Hd) as Hf.
  destruct (metadata_of_device _ _ Hd) as [m Hm]. rewrite Hm in *.
  unfold strict_field. change (Js.of_string (Stripe.lookup ?k m) Js.undefined)
    with (field (Some m) k).
  rewrite Hf, Hp, Hc. run.
  destruct (subscriptions_retrieve _ _) as [sub|]; [|reflexivity].
  destruct (subscriptions_update _ _ _) as [st|]; [|reflexivity].
  unfold store. simpl. rewrite bound_milliseconds.
  now destruct (Db.insert_on_conflict _ _ _).
Qed.

(** *** A signature that does not verify *)

Lemma Server_unverifiable req w message :
  constructEvent (body req) (stripe_signature req) STRIPE_WEBHOOK_SECRET
  = inl message ->
  Server.webhook req w = (Js.Responded (Js.Send 400 "Invalid signature"), w).
Proof.
  intros H. unfold Server.webhook, Server.verified_event. run. now rewrite H.
Qed.

Lemma Part000_unverifiable req w message :
  constructEvent (body req) (stripe_signature req) STRIPE_WEBHOOK_SECRET
  = inl message ->
  Part000.webhook req w
  = (Js.Responded (Js.Send 400 ("Webhook Error: " ++ message)), w).
Proof.
  intros H. unfold Part000.webhook, Part000.verified_event. run.
  now rewrite H.
Qed.

(** *** Storing and amending *)

Lemma insert_explicit oc x d :
  Db.insert_on_conflict oc x d
  = if Db.not_null d x
    then Some (Db.with_rows d
                 (if existsb (Db.matches (Db.deviceId x)) (Db.rows d)
                  then Db.replace (Db.deviceId x) (fun old => oc old x) (Db.rows d)
                  else Db.rows d ++ [x]))
    else None.
Proof.
  unfold Db.insert_on_conflict. destruct (Db.not_null d x); [|reflexivity].
  now destruct (existsb _ _).
Qed.

Lemma stripe_store oc x w : stripe (store oc x w) = stripe w.
Proof.
  unfold store. destruct x as [x|]; [|reflexivity].
  now destruct (Db.insert_on_conflict oc x (db w)).
Qed.

Lemma store_with_stripe oc x w st :
  store oc x (with_stripe w st) = with_stripe (store oc x w) st.
Proof.
  unfold store. destruct x as [x|]; [|reflexivity]. simpl.
  now destruct (Db.insert_on_conflict oc x (db w)).
Qed.

(** Two upserts of the same row amount to one, with the two conflict
    clauses in sequence. *)
Lemma store_store oc1 oc2 oc3 x w :
  Db.sql_eq (Db.deviceId x) (Db.deviceId x) = true ->
  Db.settles oc2 x ->
  Db.keeps_key (fun old => oc1 old x) ->
  (forall r, oc2 (oc1 r x) x = oc3 r x) ->
  store oc2 (Some x) (store oc1 (Some x) w) = store oc3 (Some x) w.
Proof.
  intros Hkey Hx Hk H. unfold store.
  destruct (Db.insert_on_conflict oc1 x (db w)) as [d1|] eqn:H1.
  - simpl. rewrite (insert_insert oc1 oc2 x (db w) d1 Hkey Hx Hk H1).
    rewrite (insert_explicit oc3).
    destruct (Db.not_null (db w) x) eqn:Hn.
    + unfold with_db. simpl. f_equal. f_equal.
      destruct (existsb _ _); [|reflexivity]. now apply replace_ext.
    + apply (insert_fails oc1) in Hn. now rewrite Hn in H1.
  - apply insert_fails in H1.
    now rewrite (proj2 (insert_fails oc2 x (db w)) H1),
      (proj2 (insert_fails oc3 x (db w)) H1).
Qed.

Lemma amend_amend b set d w :
  Db.keeps_key set -> (forall r, set (set r) = set r) ->
  amend b set d (amend b set d w) = amend b set d w.
Proof.
  intros Hk Hs. unfold amend. destruct d as [d|]; [|reflexivity].
  pose proof (update_where_twice b set (Db.TEXT d) (db w) Hk Hs) as H.
  destruct (Db.update_where b set (Db.TEXT d) (db w)) as [d'|] eqn:E.
  - simpl. now rewrite H.
  - now rewrite E.
Qed.

(** The rows of a device after [amend]. *)
Lemma db_amend_total set d w :
  db (amend true set (Some d) w)
  = Db.with_rows (db w) (Db.replace (Db.TEXT d) set (Db.rows (db w))).
Proof. reflexivity. Qed.

Lemma get_replace k k' set d :
  Db.keeps_key set ->
  Db.get k' (Db.with_rows d (Db.replace k set (Db.rows d)))
  = option_map (fun r => if Db.matches k r then set r else r) (Db.get k' d).
Proof. intros H. unfold Db.get. simpl. now apply find_replace. Qed.

Lemma get_matches k d r : Db.get k d = Some r -> Db.deviceId r = k.
Proof.
  unfold Db.get. intros H. apply find_some in H as [_ H].
  now apply sql_eq_true.
Qed.

(** A rewrite of the rows of one key leaves every other key alone. *)
Lemma get_replace_other k k' set d :
  Db.keeps_key set -> k' <> k ->
  Db.get k' (Db.with_rows d (Db.replace k set (Db.rows d))) = Db.get k' d.
Proof.
  intros H Hne. rewrite get_replace by assumption.
  destruct (Db.get k' d) as [r|] eqn:E; [|reflexivity]. simpl.
  destruct (Db.matches k r) eqn:Hm; [|reflexivity].
  apply get_matches in E. apply sql_eq_true in Hm. congruence.
Qed.

Lemma get_replace_same k set d r :
  Db.keeps_key set -> Db.get k d = Some r ->
  Db.get k (Db.with_rows d (Db.replace k set (Db.rows d))) = Some (set r).
Proof.
  intros H E. rewrite get_replace, E by assumption. simpl.
  unfold Db.get in E. apply find_some in E as [_ E]. now rewrite E.
Qed.

(** *** What a delivery does to the table *)

Lemma delivers_store event x w :
  upserting event ->
  (forall r, x = Some r -> Db.is_null (Db.customerId r) = false) ->
  delivers event (db w) (db (store Db.set_all x w)).
Proof.
  intros Hu Hx. unfold store. destruct x as [x|]; [|constructor].
  destruct (Db.insert_on_conflict Db.set_all x (db w)) as [d|] eqn:E;
    [|constructor].
  simpl. eapply delivers_upsert; eauto.
Qed.

Lemma delivers_amend event set d w :
  Db.keeps_key set ->
  (forall r, Db.customerId (set r) = Db.customerId r) ->
  delivers event (db w) (db (amend true set d w)).
Proof.
  intros Hk Hc. destruct d as [d|]; [|constructor].
  rewrite db_amend_total. now constructor.
Qed.

Lemma Server_delivers req event w :
  verified req event ->
  delivers event (db w) (db (snd (Server.webhook req w))).
Proof.
  intros Hv. destruct event.
  - rewrite (Server_checkout _ _ _ Hv). simpl.
    destruct (device_of _) as [d|]; [|constructor].
    destruct (Stripe.subscription session) as [id|]; [|constructor].
    destruct (String.eqb id ""); [constructor|].
    destruct (subscriptions_retrieve _ _) as [sub|]; [|constructor].
    destruct (subscriptions_update _ _ _) as [st|]; [|constructor].
    change (db w) with (db (with_stripe w st)) at 1.
    apply delivers_store; [exact I|].
    intros r. destruct (bound _); simpl; [|discriminate]. now intros [= <-].
  - rewrite (Server_subscription_event _ sub w _ Hv) by auto. simpl.
    apply delivers_store; [exact I|]. unfold subscription_row.
    intros r. destruct (device_of _), (interval_plan sub); try discriminate.
    now intros [= <-].
  - rewrite (Server_subscription_event _ sub w _ Hv) by auto. simpl.
    apply delivers_store; [exact I|]. unfold subscription_row.
    intros r. destruct (device_of _), (interval_plan sub); try discriminate.
    now intros [= <-].
  - rewrite (Server_payment_failed _ _ _ Hv). simpl.
    now apply delivers_amend.
  - rewrite (Server_deleted _ _ _ Hv). simpl.
    now apply delivers_amend.
  - rewrite (Server_other _ _ _ Hv). constructor.
Qed.

Lemma entitlement_key d p sub :
  Db.sql_eq (Db.deviceId (entitlement d p sub))
            (Db.deviceId (entitlement d p sub)) = true.
Proof. apply sql_eq_text. Qed.

Lemma subscription_row_key sub x :
  subscription_row sub = Some x ->
  Db.sql_eq (Db.deviceId x) (Db.deviceId x) = true.
Proof.
  unfold subscription_row.
  destruct (device_of _), (interval_plan sub); try discriminate.
  intros [= <-]. apply entitlement_key.
Qed.

Lemma find_app_some {A} (f : A -> bool) l l' x :
  find f l = Some x -> find f (l ++ l') = Some x.
Proof.
  induction l as [|a l IH]; simpl; [discriminate|].
  destruct (f a); auto.
Qed.

(** An upsert leaves a row where there was one, with the customer it
    had or with the customer of the upserted row. *)
Lemma get_insert oc x d d' k r :
  Db.keeps_key (fun old => oc old x) ->
  Db.insert_on_conflict oc x d = Some d' ->
  Db.get k d = Some r ->
  Db.get k d' = Some r \/ Db.get k d' = Some (oc r x).
Proof.
  intros Hk H E. rewrite insert_explicit in H.
  destruct (Db.not_null d x); [|discriminate].
  destruct (existsb _ _); injection H as <-.
  - rewrite get_replace, E by assumption. simpl.
    destruct (Db.matches _ r); auto.
  - left. unfold Db.get in *. simpl. now apply find_app_some.
Qed.

(** An upsert or a rewrite creates no row for a key it does not
    name. *)
Lemma get_none_replace k k' set d :
  Db.keeps_key set ->
  Db.get k' d = None ->
  Db.get k' (Db.with_rows d (Db.replace k set (Db.rows d))) = None.
Proof. intros H E. now rewrite get_replace, E. Qed.

(* ----------------------------------------------------------------- *)
(** *** The properties of the specification *)

(** C1.  Applying the same "subscription updated" event twice yields
    the same record as applying it once: in server.js and in part_000,
    the second delivery answers as the first and leaves the store (and
    Stripe's side) exactly as the first delivery left it. *)
Theorem subscription_updated_idempotent req sub w :
  verified req (Stripe.customer_subscription_updated sub) ->
  Server.webhook req (snd (Server.webhook req w)) = Server.webhook req w
  /\ Part000.webhook req (snd (Part000.webhook req w))
     = Part000.webhook req w.
Proof.
  intros Hv. split.
  - rewrite !(Server_subscription_event _ sub _ _ Hv) by auto. simpl.
    f_equal. destruct (subscription_row sub) as [x|] eqn:E; [|reflexivity].
    apply store_store; try easy.
    + exact (subscription_row_key sub x E).
    + apply settles_set_all.
  - rewrite !(Part000_updated _ _ _ Hv). simpl. f_equal.
    destruct (subscription_row sub) as [x|]; [|reflexivity].
    now apply amend_amend.
Qed.

(** C3.  An event of a recognized type that is linked to no device
    mutates nothing, does not throw and is acknowledged (server.js). *)
Theorem unlinked_event_is_skipped req event w :
  verified req event -> recognized event -> linked_device w event = None ->
  Server.webhook req w = (Js.Responded received, w).
Proof.
  intros Hv _ Hl. destruct event; simpl in Hl.
  - rewrite (Server_checkout _ _ _ Hv). now rewrite Hl.
  - rewrite (Server_subscription_event _ sub w _ Hv) by auto.
    unfold subscription_row. now rewrite Hl.
  - rewrite (Server_subscription_event _ sub w _ Hv) by auto.
    unfold subscription_row. now rewrite Hl.
  - rewrite (Server_payment_failed _ _ _ Hv). simpl. now rewrite Hl.
  - rewrite (Server_deleted _ _ _ Hv). now rewrite Hl.
  - apply (Server_other _ _ _ Hv).
Qed.

(** C6.  A request whose signature does not verify is rejected with a
    4xx answer and writes nothing, in server.js and in part_000. *)
Theorem unverifiable_is_rejected req w :
  unverifiable req ->
  (rejected (fst (Server.webhook req w)) /\ snd (Server.webhook req w) = w)
  /\ (rejected (fst (Part000.webhook req w))
      /\ snd (Part000.webhook req w) = w).
Proof.
  intros [message H]. split.
  - rewrite (Server_unverifiable _ _ _ H). split; [|reflexivity].
    exists 400, "Invalid signature". split; [reflexivity | lia].
  - rewrite (Part000_unverifiable _ _ _ H). split; [|reflexivity].
    exists 400, ("Webhook Error: " ++ message). split; [reflexivity | lia].
Qed.

Lemma entitlement_same d p sub sub' :
  Stripe.status sub' = Stripe.status sub ->
  Stripe.trial_end sub' = Stripe.trial_end sub ->
  Stripe.customer sub' = Stripe.customer sub ->
  Db.five_columns (Db.TEXT d) (Db.TEXT p) (Db.TEXT (Stripe.status sub'))
    (expires_at (Stripe.trial_end sub')) (Db.TEXT (Stripe.customer sub'))
  = entitlement d p sub.
Proof. unfold entitlement. now intros -> -> ->. Qed.

(** C2.  A "checkout completed" and a "subscription created" event that
    describe the same subscription leave the same store (and the same
    Stripe side) in either order, in server.js and in part_000. *)
Theorem checkout_and_created_commute req_c req_s session sub w :
  verified req_c (Stripe.checkout_session_completed session) ->
  verified req_s (Stripe.customer_subscription_created sub) ->
  same_subscription w session sub ->
  snd (Server.webhook req_s (snd (Server.webhook req_c w)))
  = snd (Server.webhook req_c (snd (Server.webhook req_s w)))
  /\ snd (Part000.webhook req_s (snd (Part000.webhook req_c w)))
     = snd (Part000.webhook req_c (snd (Part000.webhook req_s w))).
Proof.
  intros Hc Hs ([d [Hd Hd']] & [p [Hp Hp']] & Hcust & Hret).
  assert (Hrow : subscription_row sub = Some (entitlement d p sub))
    by (unfold subscription_row; now rewrite Hd', Hp').
  pose proof (entitlement_key d p sub) as Hkey.
  split.
  - rewrite !(Server_subscription_event _ sub _ _ Hs) by auto.
    rewrite !(Server_checkout _ _ _ Hc). simpl.
    rewrite Hd, Hp, Hrow, stripe_store. simpl.
    destruct (Stripe.subscription session) as [id|]; [|reflexivity].
    destruct (String.eqb id ""); [reflexivity|].
    simpl in Hret.
    destruct (subscriptions_retrieve (stripe w) (Js.str id)) as [sub'|];
      [|reflexivity].
    destruct (Hret sub' eq_refl) as (H1 & H2 & H3).
    rewrite (entitlement_same d p sub sub' H1 H2 H3).
    destruct (subscriptions_update _ _ _) as [st|]; [|reflexivity].
    now rewrite store_with_stripe.
  - rewrite !(Part000_created _ _ _ Hs).
    rewrite !(Part000_checkout _ _ _ d p _ Hc Hd Hp Hcust).
    rewrite Hrow, stripe_store.
    destruct (subscriptions_retrieve _ _) as [sub'|]; [|reflexivity].
    destruct (Hret sub' eq_refl) as (H1 & H2 & H3).
    rewrite H1, H2. fold (entitlement d p sub).
    destruct (subscriptions_update _ _ _) as [st|]; [|reflexivity].
    rewrite !store_with_stripe.
    rewrite !(store_store _ _ Db.set_all); try easy;
      auto using settles_set_all, settles_set_plan_status_customer.
Qed.

(** C4.  A "subscription deleted" event linked to a device resets the
    record of the device to free, inactive and without expiry, whatever
    it was, and keeps its customer, in server.js and in part_000. *)
Theorem subscription_deleted_resets req sub d r w :
  verified req (Stripe.customer_subscription_deleted sub) ->
  linked_device w (Stripe.customer_subscription_deleted sub) = Some d ->
  record d w = Some r ->
  (exists r', record d (snd (Server.webhook req w)) = Some r'
              /\ soft_reset r r')
  /\ (exists r', record d (snd (Part000.webhook req w)) = Some r'
                 /\ soft_reset r r').
Proof.
  intros Hv Hd Hr. simpl in Hd.
  rewrite (Server_deleted _ _ _ Hv), (Part000_deleted _ _ _ _ Hv Hd), Hd.
  unfold record in *. simpl.
  rewrite (get_replace_same _ _ _ _ keeps_key_set_free Hr).
  split; exists (Db.set_free r); repeat split.
Qed.

(** C5.  An "invoice payment failed" event whose subscription is linked
    to a device sets the status of the record of that device to
    inactive and changes nothing else: not its plan, expiry or
    customer, and no record of another key (server.js). *)
Theorem payment_failed_changes_status_only req invoice d w :
  verified req (Stripe.invoice_payment_failed invoice) ->
  linked_device w (Stripe.invoice_payment_failed invoice) = Some d ->
  (forall r, record d w = Some r ->
     exists r', record d (snd (Server.webhook req w)) = Some r'
                /\ only_inactive r r')
  /\ (forall k, k <> Db.TEXT d ->
        Db.get k (db (snd (Server.webhook req w))) = Db.get k (db w))
  /\ stripe (snd (Server.webhook req w)) = stripe w.
Proof.
  intros Hv Hd. rewrite (Server_payment_failed _ _ _ Hv), Hd.
  unfold record. simpl. rewrite ?db_amend_total. repeat split.
  - intros r Hr. exists (Db.set_inactive r).
    rewrite (get_replace_same _ _ _ _ keeps_key_set_inactive Hr).
    repeat split.
  - intros k Hk. now apply get_replace_other.
Qed.

(** C9.  Once the record of a device names a customer, it names one
    after every lifecycle event (server.js): the UPDATE branches do not
    write [customerId], and the upserts write the customer of a
    subscription, which is never null. *)
Theorem customer_stays_set req event d r w :
  verified req event ->
  record d w = Some r ->
  Db.customerId r <> Db.NULL ->
  exists r', record d (snd (Server.webhook req w)) = Some r'
             /\ Db.customerId r' <> Db.NULL.
Proof.
  intros Hv Hr Hc. unfold record in *.
  destruct (Server_delivers req event w Hv) as [|x d' _ Hx Hi|k set Hk Hset].
  - eauto.
  - destruct (get_insert Db.set_all x _ _ _ _ (keeps_key_set_all x) Hi Hr)
      as [-> | ->]; eexists; split; try reflexivity; auto.
    simpl. intros E. now rewrite E in Hx.
  - rewrite get_replace, Hr by assumption. simpl. eexists. split; eauto.
    destruct (Db.matches k r); [rewrite Hset|]; assumption.
Qed.

(** C10.  A "subscription deleted" or "invoice payment failed" event
    creates no row (server.js): the table keeps its number of rows, and
    a device without a record still has none. *)
Theorem update_only_events_create_no_row req event w :
  verified req event ->
  update_only event ->
  length (Db.rows (db (snd (Server.webhook req w))))
  = length (Db.rows (db w))
  /\ forall d, record d w = None ->
               record d (snd (Server.webhook req w)) = None.
Proof.
  intros Hv Hu.
  assert (H : exists set dev, Db.keeps_key set
                /\ snd (Server.webhook req w) = amend true set dev w).
  { destruct event; try contradiction.
    - rewrite (Server_payment_failed _ _ _ Hv).
      eexists _, _. split; [apply keeps_key_set_inactive | reflexivity].
    - rewrite (Server_deleted _ _ _ Hv).
      eexists _, _. split; [apply keeps_key_set_free | reflexivity]. }
  destruct H as (set & [dev|] & Hk & ->); [|auto].
  unfold record. simpl. rewrite ?db_amend_total. split.
  - apply length_replace.
  - intros d. now apply get_none_replace.
Qed.

(** *** The places where part_000 differs *)

(** server.js answers the default entitlement for a device without a
    record. *)
Lemma Server_status_unknown d w :
  record d w = None ->
  Server.subscription_status d w = (Js.Responded Server.free_inactive, w).
Proof.
  unfold record, Server.subscription_status. intros H. run. now rewrite H.
Qed.

(** part_000 answers [trial: false] in place of [expiresAt: null]. *)
Lemma Part000_status_unknown d w :
  record d w = None ->
  Part000.subscription_status d w
  = (Js.Responded (Js.Json 200 [("plan", Js.JStr "free");
                                ("status", Js.JStr "inactive");
                                ("trial", Js.JBool false)]), w).
Proof.
  unfold record, Part000.subscription_status. intros H. run. now rewrite H.
Qed.

(** In part_000 a failed lookup of the subscription of a checkout
    session is not caught: the handler rejects without answering. *)
Lemma Part000_lookup_failure req session m w :
  verified req (Stripe.checkout_session_completed session) ->
  Stripe.session_metadata session = Some m ->
  subscriptions_retrieve (stripe w)
    (Js.of_string (Stripe.subscription session) Js.null) = None ->
  Part000.webhook req w = (Js.Unhandled Js.StripeError, w).
Proof.
  intros Hv Hm Hr. unfold Part000.webhook, handle, bind at 1.
  rewrite (variant_verified _ _ _ Hv). simpl. rewrite Hm. run.
  now rewrite Hr.
Qed.

End Reconciliation.

(* ================================================================= *)
(** ** More about the webhook and the status query *)

Section Deliveries.

Context {C : Collaborators}.

Lemma stripe_amend b set d w : stripe (amend b set d w) = stripe w.
Proof.
  unfold amend. destruct d as [d|]; [|reflexivity].
  now destruct (Db.update_where b set (Db.TEXT d) (db w)).
Qed.

Lemma exists_find k rs :
  existsb (Db.matches k) rs = true ->
  exists r, find (Db.matches k) rs = Some r.
Proof.
  induction rs as [|r rs IH]; simpl; [discriminate|].
  destruct (Db.matches k r); eauto.
Qed.

Lemma find_absent k rs x :
  existsb (Db.matches k) rs = false ->
  find (Db.matches k) (rs ++ [x]) = if Db.matches k x then Some x else None.
Proof.
  induction rs as [|r rs IH]; simpl; [reflexivity|].
  destruct (Db.matches k r); [discriminate | exact IH].
Qed.

(** Looking up the key of a row that has just been upserted: the row
    itself when the key was new, the old row after the conflict clause
    otherwise. *)
Lemma get_upserted oc x d d' s :
  Db.deviceId x = Db.TEXT s ->
  Db.keeps_key (fun old => oc old x) ->
  Db.insert_on_conflict oc x d = Some d' ->
  match Db.get (Db.TEXT s) d with
  | Some r => Db.get (Db.TEXT s) d' = Some (oc r x)
  | None => Db.get (Db.TEXT s) d' = Some x
  end.
Proof.
  intros Hs Hk H. rewrite insert_explicit in H.
  destruct (Db.not_null d x); [|discriminate]. rewrite Hs in H.
  unfold Db.get.
  destruct (existsb (Db.matches (Db.TEXT s)) (Db.rows d)) eqn:He;
    injection H as <-; simpl.
  - destruct (exists_find _ _ He) as [r Hr]. rewrite Hr.
    rewrite find_replace, Hr by assumption. simpl.
    apply find_some in Hr as [_ Hr]. now rewrite Hr.
  - destruct (find _ (Db.rows d)) as [r|] eqn:Hr.
    + apply find_some in Hr as [Hin Hr].
      assert (existsb (Db.matches (Db.TEXT s)) (Db.rows d) = true)
        by (apply existsb_exists; eauto).
      congruence.
    + rewrite find_absent by assumption.
      unfold Db.matches. now rewrite Hs, sql_eq_text.
Qed.

(** The row that [store] leaves for the device of an upserted row. *)
Lemma record_store x w s :
  Db.deviceId x = Db.TEXT s ->
  Db.not_null (db w) x = true ->
  exists r', record s (store Db.set_all (Some x) w) = Some r'
             /\ Db.plan r' = Db.plan x /\ Db.status r' = Db.status x
             /\ Db.expiresAt r' = Db.expiresAt x
             /\ Db.customerId r' = Db.customerId x.
Proof.
  intros Hs Hn. unfold store, record.
  destruct (Db.insert_on_conflict Db.set_all x (db w)) as [d'|] eqn:H.
  - pose proof (get_upserted Db.set_all x (db w) d' s Hs
                  (keeps_key_set_all x) H) as G. simpl.
    destruct (Db.get (Db.TEXT s) (db w)) as [r|]; rewrite G; eexists;
      repeat split.
  - apply insert_fails in H. congruence.
Qed.

Lemma not_null_five_columns d k p s e c :
  Db.trial_column d = false ->
  Db.not_null d (Db.five_columns k (Db.TEXT p) (Db.TEXT s) e c) = true.
Proof. intros H. unfold Db.not_null. now rewrite H. Qed.

(** X1.  An event of a type without a branch. *)
Theorem unknown_event_is_ignored req type w :
  verified req (Stripe.other type) ->
  Server.webhook req w = (Js.Responded received, w)
  /\ Part000.webhook req w = (Js.Responded received, w).
Proof.
  intros Hv. split; [exact (Server_other _ _ _ Hv)|].
  unfold Part000.webhook, handle, bind at 1.
  now rewrite (variant_verified _ _ _ Hv).
Qed.

(** X2.  A completed checkout that goes through stores the entitlement
    Stripe reports. *)
Theorem checkout_completed_stores_entitlement
    req session d id p sub st w :
  verified req (Stripe.checkout_session_completed session) ->
  device_of (Stripe.session_metadata session) = Some d ->
  Stripe.subscription session = Some id -> id <> "" ->
  field (Stripe.session_metadata session) "plan" = Js.str p ->
  subscriptions_retrieve (stripe w) (Js.str id) = Some sub ->
  subscriptions_update (stripe w) (Js.str id) (Js.str d) = Some st ->
  Db.trial_column (db w) = false ->
  acknowledged (fst (Server.webhook req w))
  /\ stripe (snd (Server.webhook req w)) = st
  /\ exists r', record d (snd (Server.webhook req w)) = Some r'
                /\ Db.plan r' = Db.TEXT p
                /\ Db.status r' = Db.TEXT (Stripe.status sub)
                /\ Db.expiresAt r' = expires_at (Stripe.trial_end sub)
                /\ Db.customerId r' = Db.TEXT (Stripe.customer sub).
Proof.
  intros Hv Hd Hid Hne Hp Hr Hu Ht.
  rewrite (Server_checkout _ _ _ Hv), Hd, Hid, Hp, Hr, Hu.
  apply String.eqb_neq in Hne. rewrite Hne. simpl.
  repeat split.
  - apply stripe_store.
  - apply (record_store
             (Db.five_columns (Db.TEXT d) (Db.TEXT p)
                (Db.TEXT (Stripe.status sub))
                (expires_at (Stripe.trial_end sub))
                (Db.TEXT (Stripe.customer sub)))
             (with_stripe w st) d eq_refl).
    now apply not_null_five_columns.
Qed.

Lemma subscription_row_linked sub d p :
  device_of (Some (Stripe.metadata sub)) = Some d ->
  interval_plan sub = Some p ->
  subscription_row sub = Some (entitlement d p sub).
Proof. intros Hd Hp. unfold subscription_row. now rewrite Hd, Hp. Qed.

(** X3.  What the status query answers after a subscription event. *)
Theorem status_after_subscription_event req event sub d p w :
  verified req event ->
  event = Stripe.customer_subscription_created sub
  \/ event = Stripe.customer_subscription_updated sub ->
  device_of (Some (Stripe.metadata sub)) = Some d ->
  interval_plan sub = Some p ->
  Db.trial_column (db w) = false ->
  Server.subscription_status d (snd (Server.webhook req w))
  = (Js.Responded
       (Js.Json 200
          (status_body (Js.JStr p) (Js.JStr (Stripe.status sub))
             (json_of (expires_at (Stripe.trial_end sub))))),
     snd (Server.webhook req w)).
Proof.
  intros Hv He Hd Hp Ht.
  rewrite (Server_subscription_event _ sub w _ Hv He).
  rewrite (subscription_row_linked _ _ _ Hd Hp). simpl.
  destruct (record_store (entitlement d p sub) w d eq_refl
              (not_null_five_columns _ _ _ _ _ _ Ht))
    as (r' & Hr & H1 & H2 & H3 & _).
  unfold record in Hr. unfold Server.subscription_status. run.
  now rewrite Hr, H1, H2, H3.
Qed.

(** X4.  What the status query answers after a cancellation. *)
Theorem status_after_deleted req sub d w :
  verified req (Stripe.customer_subscription_deleted sub) ->
  device_of (Some (Stripe.metadata sub)) = Some d ->
  Server.subscription_status d (snd (Server.webhook req w))
  = (Js.Responded Server.free_inactive, snd (Server.webhook req w)).
Proof.
  intros Hv Hd. rewrite (Server_deleted _ _ _ Hv), Hd. simpl.
  unfold Server.subscription_status. run. rewrite ?db_amend_total.
  destruct (Db.get (Db.TEXT d) (db w)) as [r|] eqn:Hr.
  - now rewrite (get_replace_same _ _ _ _ keeps_key_set_free Hr).
  - now rewrite (get_none_replace _ _ _ _ keeps_key_set_free Hr).
Qed.

Lemma store_five_columns_trial oc k p s e c w :
  Db.trial_column (db w) = true ->
  store oc (Some (Db.five_columns k p s e c)) w = w.
Proof.
  intros H. unfold store.
  now rewrite (insert_five_columns_trial oc k p s e c (db w) H).
Qed.

(** X5.  On the table that db.js creates no upsert goes through. *)
Theorem table_of_db_js_stores_no_entitlement req event w :
  verified req event ->
  upserting event ->
  Db.trial_column (db w) = true ->
  acknowledged (fst (Server.webhook req w))
  /\ db (snd (Server.webhook req w)) = db w.
Proof.
  intros Hv Hu Ht. split; [exact (Server_acknowledges _ _ _ Hv)|].
  assert (Hsub : forall sub, store Db.set_all (subscription_row sub) w = w).
  { intros sub. unfold subscription_row.
    destruct (device_of _), (interval_plan sub); try reflexivity.
    now apply store_five_columns_trial. }
  destruct event; try contradiction.
  - rewrite (Server_checkout _ _ _ Hv). simpl.
    destruct (device_of _) as [d|]; [|reflexivity].
    destruct (Stripe.subscription session) as [id|]; [|reflexivity].
    destruct (String.eqb id ""); [reflexivity|].
    destruct (subscriptions_retrieve _ _) as [sub|]; [|reflexivity].
    destruct (subscriptions_update _ _ _) as [st|]; [|reflexivity].
    destruct (bound _) as [plan|]; [|reflexivity]. simpl.
    now rewrite store_five_columns_trial.
  - rewrite (Server_subscription_event _ sub w _ Hv) by auto.
    simpl. now rewrite Hsub.
  - rewrite (Server_subscription_event _ sub w _ Hv) by auto.
    simpl. now rewrite Hsub.
Qed.

(** X6.  A delivery removes no record and adds at most one row. *)
Theorem records_are_never_removed req event w :
  verified req event ->
  (forall d, record d w <> None ->
             record d (snd (Server.webhook req w)) <> None)
  /\ (length (Db.rows (db w))
      <= length (Db.rows (db (snd (Server.webhook req w))))
      <= S (length (Db.rows (db w))))%nat.
Proof.
  intros Hv. unfold record.
  destruct (Server_delivers req event w Hv) as [|x d' _ _ Hi|k set Hk _].
  - split; [auto | lia].
  - split.
    + intros d Hd. destruct (Db.get (Db.TEXT d) (db w)) as [r|] eqn:Hr;
        [|congruence].
      destruct (get_insert Db.set_all x _ _ _ _ (keeps_key_set_all x) Hi Hr)
        as [-> | ->]; discriminate.
    + rewrite insert_explicit in Hi.
      destruct (Db.not_null (db w) x); [|discriminate].
      destruct (existsb _ _); injection Hi as <-; simpl.
      * rewrite length_replace. lia.
      * rewrite length_app. simpl. lia.
  - split.
    + intros d Hd. rewrite get_replace by assumption.
      destruct (Db.get (Db.TEXT d) (db w)); [discriminate | congruence].
    + simpl. rewrite length_replace. lia.
Qed.

(** *** The constraints of the table *)

Lemma NoDup_snoc {A} (l : list A) a :
  NoDup l -> ~ In a l -> NoDup (l ++ [a]).
Proof.
  induction l as [|b l IH]; simpl; intros Hl Ha.
  - constructor; [tauto | constructor].
  - inversion Hl as [|? ? Hb Hl']; subst. constructor.
    + rewrite in_app_iff. simpl. intros [H | [H | []]]; [tauto|].
      subst. tauto.
    + apply IH; tauto.
Qed.

Lemma absent_key s rs :
  existsb (Db.matches (Db.TEXT s)) rs = false ->
  ~ In (Db.TEXT s) (map Db.deviceId rs).
Proof.
  intros He Hin. apply in_map_iff in Hin as (r & Hr & Hin).
  assert (existsb (Db.matches (Db.TEXT s)) rs = true); [|congruence].
  apply existsb_exists. exists r. split; [assumption|].
  unfold Db.matches. rewrite Hr. apply sql_eq_text.
Qed.

Lemma keys_replace k set rs :
  Db.keeps_key set ->
  map Db.deviceId (Db.replace k set rs) = map Db.deviceId rs.
Proof.
  intros H. unfold Db.replace. rewrite map_map. apply map_ext.
  intros r. destruct (Db.matches k r); auto.
Qed.

(** A rewrite by a setter that keeps the key and the NOT NULL columns
    keeps the constraints. *)
Lemma constrained_replace k set d :
  Db.keeps_key set ->
  (forall r, Db.not_null d r = true -> Db.not_null d (set r) = true) ->
  constrained d ->
  constrained (Db.with_rows d (Db.replace k set (Db.rows d))).
Proof.
  intros Hk Hn [Hd Hf]. split; simpl.
  - now rewrite keys_replace.
  - unfold Db.replace. apply Forall_map.
    eapply Forall_impl; [|exact Hf]. simpl. intros r [H1 H2].
    destruct (Db.matches k r); [|now split].
    split; [now rewrite Hk | now apply Hn].
Qed.

Lemma not_null_set_all d r x :
  Db.not_null d r = true -> Db.not_null d x = true ->
  Db.not_null d (Db.set_all r x) = true.
Proof.
  unfold Db.not_null. simpl. intros Hr Hx.
  apply andb_true_iff in Hr as [_ Hr].
  apply andb_true_iff in Hx as [Hx _]. now rewrite Hx, Hr.
Qed.

(** An upsert under a text key keeps the constraints. *)
Lemma constrained_insert x d d' s :
  Db.deviceId x = Db.TEXT s ->
  Db.insert_on_conflict Db.set_all x d = Some d' ->
  constrained d -> constrained d'.
Proof.
  intros Hs H Hc. rewrite insert_explicit in H.
  destruct (Db.not_null d x) eqn:Hn; [|discriminate]. rewrite Hs in H.
  destruct (existsb _ _) eqn:He; injection H as <-.
  - apply constrained_replace; auto using keeps_key_set_all.
    intros r Hr. now apply not_null_set_all.
  - destruct Hc as [Hd Hf]. split; simpl.
    + rewrite map_app. simpl. rewrite Hs.
      apply NoDup_snoc; [assumption | now apply absent_key].
    + apply Forall_app. split; [exact Hf|].
      constructor; [|constructor]. now rewrite Hs.
Qed.

Lemma constrained_store x w s :
  (forall r, x = Some r -> Db.deviceId r = Db.TEXT s) ->
  constrained (db w) -> constrained (db (store Db.set_all x w)).
Proof.
  intros Hx Hc. unfold store. destruct x as [x|]; [|assumption].
  destruct (Db.insert_on_conflict Db.set_all x (db w)) as [d'|] eqn:H;
    [|assumption].
  simpl. exact (constrained_insert x (db w) d' s (Hx x eq_refl) H Hc).
Qed.

Lemma constrained_amend set d w :
  Db.keeps_key set ->
  (forall r, Db.not_null (db w) r = true ->
             Db.not_null (db w) (set r) = true) ->
  constrained (db w) -> constrained (db (amend true set d w)).
Proof.
  intros Hk Hn Hc. destruct d as [d|]; [|assumption].
  rewrite db_amend_total. now apply constrained_replace.
Qed.

Lemma not_null_set_inactive d r :
  Db.not_null d r = true -> Db.not_null d (Db.set_inactive r) = true.
Proof.
  unfold Db.not_null. simpl. intros H.
  apply andb_true_iff in H as [H1 H2].
  apply andb_true_iff in H1 as [H1 _]. now rewrite H1, H2.
Qed.

Lemma not_null_set_free d r :
  Db.not_null d r = true -> Db.not_null d (Db.set_free r) = true.
Proof.
  unfold Db.not_null. simpl. intros H.
  now apply andb_true_iff in H as [_ ->].
Qed.

(** X7.  Every delivery keeps the constraints of the table. *)
Theorem deliveries_keep_constraints req event w :
  verified req event ->
  constrained (db w) ->
  constrained (db (snd (Server.webhook req w))).
Proof.
  intros Hv Hc.
  assert (Hsub : forall sub,
             constrained (db (store Db.set_all (subscription_row sub) w))).
  { intros sub. unfold subscription_row.
    destruct (device_of _) as [d|], (interval_plan sub) as [p|];
      try exact Hc.
    apply (constrained_store _ w d); [|exact Hc]. now intros r [= <-]. }
  destruct event.
  - rewrite (Server_checkout _ _ _ Hv). simpl.
    destruct (device_of _) as [d|]; [|exact Hc].
    destruct (Stripe.subscription session) as [id|]; [|exact Hc].
    destruct (String.eqb id ""); [exact Hc|].
    destruct (subscriptions_retrieve _ _) as [sub|]; [|exact Hc].
    destruct (subscriptions_update _ _ _) as [st|]; [|exact Hc].
    apply (constrained_store _ (with_stripe w st) d); [|exact Hc].
    intros r. destruct (bound _); simpl; [|discriminate]. now intros [= <-].
  - rewrite (Server_subscription_event _ sub w _ Hv) by auto. apply Hsub.
  - rewrite (Server_subscription_event _ sub w _ Hv) by auto. apply Hsub.
  - rewrite (Server_payment_failed _ _ _ Hv). simpl.
    apply constrained_amend;
      auto using keeps_key_set_inactive, not_null_set_inactive.
  - rewrite (Server_deleted _ _ _ Hv). simpl.
    apply constrained_amend;
      auto using keeps_key_set_free, not_null_set_free.
  - now rewrite (Server_other _ _ _ Hv).
Qed.

(** *** Redelivery, Stripe's side, and how events combine *)

Lemma linked_device_stripe w w' event :
  stripe w' = stripe w -> linked_device w' event = linked_device w event.
Proof. intros H. destruct event; simpl; now rewrite ?H. Qed.

(** X8.  Delivering an event other than a checkout a second time. *)
Theorem redelivery_changes_nothing req event w :
  verified req event ->
  not_checkout event ->
  Server.webhook req (snd (Server.webhook req w)) = Server.webhook req w.
Proof.
  intros Hv Hn. destruct event; try contradiction.
  - rewrite !(Server_subscription_event _ sub _ _ Hv) by auto. simpl.
    f_equal. destruct (subscription_row sub) as [x|] eqn:E; [|reflexivity].
    apply store_store; try easy.
    + exact (subscription_row_key sub x E).
    + apply settles_set_all.
  - rewrite !(Server_subscription_event _ sub _ _ Hv) by auto. simpl.
    f_equal. destruct (subscription_row sub) as [x|] eqn:E; [|reflexivity].
    apply store_store; try easy.
    + exact (subscription_row_key sub x E).
    + apply settles_set_all.
  - rewrite !(Server_payment_failed _ _ _ Hv). cbn [snd]. f_equal.
    rewrite (linked_device_stripe w) by apply stripe_amend.
    now apply amend_amend.
  - rewrite !(Server_deleted _ _ _ Hv). simpl. f_equal.
    now apply amend_amend.
  - now rewrite !(Server_other _ _ _ Hv).
Qed.

(** X9.  Only a completed checkout writes to Stripe. *)
Theorem only_checkout_writes_to_stripe req event w :
  verified req event ->
  not_checkout event ->
  stripe (snd (Server.webhook req w)) = stripe w
  /\ stripe (snd (Part000.webhook req w)) = stripe w.
Proof.
  intros Hv Hn. split.
  - destruct event; try contradiction.
    + rewrite (Server_subscription_event _ sub w _ Hv) by auto.
      apply stripe_store.
    + rewrite (Server_subscription_event _ sub w _ Hv) by auto.
      apply stripe_store.
    + rewrite (Server_payment_failed _ _ _ Hv). apply stripe_amend.
    + rewrite (Server_deleted _ _ _ Hv). apply stripe_amend.
    + now rewrite (Server_other _ _ _ Hv).
  - destruct event; try contradiction.
    + rewrite (Part000_created _ _ _ Hv). apply stripe_store.
    + rewrite (Part000_updated _ _ _ Hv). simpl.
      destruct (subscription_row sub); [apply stripe_amend | reflexivity].
    + unfold Part000.webhook, handle, bind at 1.
      rewrite (variant_verified _ _ _ Hv). simpl. run.
      repeat (branch; simpl; try reflexivity).
    + unfold Part000.webhook, handle, bind at 1.
      rewrite (variant_verified _ _ _ Hv). simpl. run.
      repeat (branch; simpl; try reflexivity).
    + unfold Part000.webhook, handle, bind at 1.
      now rewrite (variant_verified _ _ _ Hv).
Qed.

Lemma amend_compose set1 set2 d w :
  Db.keeps_key set1 ->
  amend true set2 (Some d) (amend true set1 (Some d) w)
  = amend true (fun r => set2 (set1 r)) (Some d) w.
Proof.
  intros Hk. unfold amend, Db.update_where, with_db, Db.with_rows. simpl.
  now rewrite replace_replace.
Qed.

Lemma amend_ext set1 set2 d w :
  (forall r, set1 r = set2 r) ->
  amend true set1 (Some d) w = amend true set2 (Some d) w.
Proof.
  intros H. unfold amend, Db.update_where, with_db, Db.with_rows. simpl.
  now rewrite (replace_ext _ set1 set2).
Qed.

(** X10.  A cancellation absorbs a payment failure of the same device,
    whichever comes first. *)
Theorem cancellation_absorbs_payment_failure req_d req_f sub invoice d w :
  verified req_d (Stripe.customer_subscription_deleted sub) ->
  verified req_f (Stripe.invoice_payment_failed invoice) ->
  device_of (Some (Stripe.metadata sub)) = Some d ->
  linked_device w (Stripe.invoice_payment_failed invoice) = Some d ->
  snd (Server.webhook req_f (snd (Server.webhook req_d w)))
  = snd (Server.webhook req_d w)
  /\ snd (Server.webhook req_d (snd (Server.webhook req_f w)))
     = snd (Server.webhook req_d w).
Proof.
  intros Hd Hf Hdev Hl.
  rewrite !(Server_deleted _ _ _ Hd), !(Server_payment_failed _ _ _ Hf).
  cbn [snd]. rewrite (linked_device_stripe w) by apply stripe_amend.
  rewrite Hdev, Hl. split.
  - rewrite amend_compose by apply keeps_key_set_free.
    now apply amend_ext.
  - rewrite amend_compose by apply keeps_key_set_inactive.
    now apply amend_ext.
Qed.

(** X11.  In part_000 a "subscription created" event for a device that has
    a record leaves the expiry of the record as it was. *)
Theorem part_000_created_keeps_expiry req sub d p r w :
  verified req (Stripe.customer_subscription_created sub) ->
  device_of (Some (Stripe.metadata sub)) = Some d ->
  interval_plan sub = Some p ->
  Db.trial_column (db w) = false ->
  record d w = Some r ->
  exists r', record d (snd (Part000.webhook req w)) = Some r'
             /\ Db.expiresAt r' = Db.expiresAt r
             /\ Db.plan r' = Db.TEXT p
             /\ Db.status r' = Db.TEXT (Stripe.status sub)
             /\ Db.customerId r' = Db.TEXT (Stripe.customer sub).
Proof.
  intros Hv Hd Hp Ht Hr.
  rewrite (Part000_created _ _ _ Hv), (subscription_row_linked _ _ _ Hd Hp).
  unfold store, record in *.
  destruct (Db.insert_on_conflict Db.set_plan_status_customer
              (entitlement d p sub) (db w)) as [d'|] eqn:H.
  - assert (Hk : Db.keeps_key
                   (fun old => Db.set_plan_status_customer old
                                 (entitlement d p sub)))
      by now intros x.
    pose proof (get_upserted Db.set_plan_status_customer
                  (entitlement d p sub) (db w) d' d eq_refl Hk H) as G.
    rewrite Hr in G. simpl. rewrite G. eexists. repeat split.
  - apply insert_fails in H.
    unfold entitlement in H.
    now rewrite (not_null_five_columns _ _ _ _ _ _ Ht) in H.
Qed.

(** X12.  In part_000 a "subscription updated" event rewrites rows and
    creates none, and it does not write the customer. *)
Theorem part_000_updated_creates_no_row req sub w :
  verified req (Stripe.customer_subscription_updated sub) ->
  length (Db.rows (db (snd (Part000.webhook req w))))
  = length (Db.rows (db w))
  /\ (forall d, record d w = None ->
                record d (snd (Part000.webhook req w)) = None)
  /\ (forall d r, record d w = Some r ->
        exists r', record d (snd (Part000.webhook req w)) = Some r'
                   /\ Db.customerId r' = Db.customerId r).
Proof.
  intros Hv. rewrite (Part000_updated _ _ _ Hv). cbn [snd].
  destruct (subscription_row sub) as [x|]; [|eauto].
  destruct (device_of _) as [k|]; [|simpl; eauto].
  unfold record. rewrite db_amend_total.
  assert (Hk := keeps_key_set_plan_status_expires
                  (Db.plan x) (Db.status x) (Db.expiresAt x)).
  repeat split.
  - simpl. apply length_replace.
  - intros d Hd. now apply get_none_replace.
  - intros d r Hr. rewrite get_replace, Hr by assumption. simpl.
    eexists. split; [reflexivity|]. now destruct (Db.matches _ r).
Qed.

End Deliveries.

(* ================================================================= *)
(** ** The session routes *)

Section SessionRoutes.

Context {C : Collaborators} {S : Sessions}.

(** X13.  A checkout request without a device or with another plan. *)
Theorem invalid_checkout_is_rejected body w :
  Body.truthy (Body.get "deviceId" body) = false
  \/ Body.monthly_or_yearly (Body.get "plan" body) = false ->
  ServerRoutes.create_checkout_session body w
  = (Js.Responded (Js.Json 400 (error_body "Invalid checkout request")), w)
  /\ Part000Routes.create_checkout_session body w
     = (Js.Responded (Js.Json 400 (error_body "Invalid checkout request")),
        w).
Proof.
  intros H.
  assert (E : negb (Body.truthy (Body.get "deviceId" body))
              || negb (Body.monthly_or_yearly (Body.get "plan" body))
              = true)
    by (destruct H as [-> | ->]; simpl; auto using orb_true_r).
  routes. now rewrite E.
Qed.

(** X14.  A valid checkout request asks Stripe for a subscription session
    at the price of the plan, with a trial of seven days and the device
    in the metadata of the session and of the subscription. *)
Theorem checkout_session_for_plan body deviceId p w :
  Body.get "deviceId" body = deviceId ->
  Body.truthy deviceId = true ->
  Body.get "plan" body = Some (Body.Str p) ->
  p = "monthly" \/ p = "yearly" ->
  ServerRoutes.create_checkout_session body w
  = match checkout_sessions_create (stripe w)
            {| mode := "subscription";
               line_item_price :=
                 if String.eqb p "yearly"
                 then "price_1Sjtj10V3msArFU1pteEpDbb"
                 else "price_1Sk8Y50V3msArFU1a5GYycxV";
               line_item_quantity := 1;
               trial_period_days := 7;
               subscription_metadata_deviceId := deviceId;
               success_url := "eyebalance://success";
               cancel_url := "eyebalance://cancel";
               metadata_deviceId := deviceId;
               metadata_plan := Some (Body.Str p) |} with
    | Some (url, st) =>
        (Js.Responded (Js.Json 200 [("url", url_json url)]),
         with_stripe w st)
    | None =>
        (Js.Responded (Js.Json 500 (error_body "Checkout failed")), w)
    end.
Proof.
  intros Hd Ht Hp Hv. routes. rewrite Hd, Hp, Ht.
  unfold checkout_params, priceId, Body.monthly_or_yearly. simpl.
  destruct Hv as [-> | ->]; simpl;
    now destruct (checkout_sessions_create _ _) as [[url st]|].
Qed.

(** X15.  In part_000 a valid checkout request gets no answer when Stripe
    fails. *)
Theorem part_000_checkout_failure_is_unanswered body w :
  Body.truthy (Body.get "deviceId" body) = true ->
  Body.monthly_or_yearly (Body.get "plan" body) = true ->
  checkout_sessions_create (stripe w)
    (checkout_params (Body.get "plan" body) (Body.get "deviceId" body))
  = None ->
  Part000Routes.create_checkout_session body w
  = (Js.Unhandled Js.StripeError, w).
Proof.
  intros Ht Hp Hc. routes. rewrite Ht, Hp. simpl. now rewrite Hc.
Qed.

(** X16.  The portal for a device without a record or without a
    customer. *)
Theorem portal_without_customer body d w :
  Body.get "deviceId" body = Some (Body.Str d) ->
  has_customer (option_map Db.customerId (record d w)) = false ->
  ServerRoutes.create_portal_session body w
  = (Js.Responded (Js.Json 400 (error_body "No customer found")), w)
  /\ Part000Routes.create_portal_session body w
     = (Js.Responded (Js.Json 400 (error_body "No customer found")), w).
Proof.
  unfold record. intros Hd Hc. routes. now rewrite Hd; simpl; rewrite Hc.
Qed.

Lemma portal_for_customer body d r w :
  Body.get "deviceId" body = Some (Body.Str d) ->
  record d w = Some r ->
  has_customer (Some (Db.customerId r)) = true ->
  ServerRoutes.create_portal_session body w
  = match billingPortal_sessions_create (stripe w)
            {| portal_customer := Db.customerId r;
               return_url := "eyebalance://subscription" |} with
    | Some (url, st) =>
        (Js.Responded (Js.Json 200 [("url", Js.JStr url)]),
         with_stripe w st)
    | None =>
        (Js.Responded (Js.Json 500 (error_body "Portal unavailable")), w)
    end.
Proof.
  unfold record. intros Hd Hr Hc. routes. rewrite Hd. simpl.
  rewrite Hr. simpl. simpl in Hc. rewrite Hc. simpl.
  now destruct (billingPortal_sessions_create _ _) as [[url st]|].
Qed.

(** X17.  The portal is opened for the customer stored with the
    device. *)
Theorem portal_uses_stored_customer body d r w :
  Body.get "deviceId" body = Some (Body.Str d) ->
  record d w = Some r ->
  has_customer (Some (Db.customerId r)) = true ->
  ServerRoutes.create_portal_session body w
  = match billingPortal_sessions_create (stripe w)
            {| portal_customer := Db.customerId r;
               return_url := "eyebalance://subscription" |} with
    | Some (url, st) =>
        (Js.Responded (Js.Json 200 [("url", Js.JStr url)]),
         with_stripe w st)
    | None =>
        (Js.Responded (Js.Json 500 (error_body "Portal unavailable")), w)
    end.
Proof. exact (portal_for_customer body d r w). Qed.

(** X18.  After a subscription event has been stored, the portal of the
    device is opened for the customer of the subscription. *)
Theorem portal_after_subscription_event req event sub d p body w :
  verified req event ->
  event = Stripe.customer_subscription_created sub
  \/ event = Stripe.customer_subscription_updated sub ->
  device_of (Some (Stripe.metadata sub)) = Some d ->
  interval_plan sub = Some p ->
  Db.trial_column (db w) = false ->
  Stripe.customer sub <> "" ->
  Body.get "deviceId" body = Some (Body.Str d) ->
  ServerRoutes.create_portal_session body (snd (Server.webhook req w))
  = match billingPortal_sessions_create (stripe w)
            {| portal_customer := Db.TEXT (Stripe.customer sub);
               return_url := "eyebalance://subscription" |} with
    | Some (url, st) =>
        (Js.Responded (Js.Json 200 [("url", Js.JStr url)]),
         with_stripe (snd (Server.webhook req w)) st)
    | None =>
        (Js.Responded (Js.Json 500 (error_body "Portal unavailable")),
         snd (Server.webhook req w))
    end.
Proof.
  intros Hv He Hd Hp Ht Hc Hb.
  rewrite (Server_subscription_event _ sub w _ Hv He).
  rewrite (subscription_row_linked _ _ _ Hd Hp). cbn [snd].
  destruct (record_store (entitlement d p sub) w d eq_refl
              (not_null_five_columns _ _ _ _ _ _ Ht))
    as (r' & Hr & _ & _ & _ & H4).
  rewrite <- (stripe_store Db.set_all (Some (entitlement d p sub)) w).
  simpl in H4. rewrite <- H4.
  apply (portal_for_customer body d r'); try assumption.
  rewrite H4. simpl. apply String.eqb_neq in Hc. now rewrite Hc.
Qed.

(** X19.  The session routes of server.js always answer, with 200, 400 or
    500, and never write to the table. *)
Theorem session_routes_answer_and_never_write body w :
  (exists code answer,
     fst (ServerRoutes.create_checkout_session body w)
     = Js.Responded (Js.Json code answer)
     /\ (code = 200 \/ code = 400 \/ code = 500))
  /\ db (snd (ServerRoutes.create_checkout_session body w)) = db w
  /\ (exists code answer,
        fst (ServerRoutes.create_portal_session body w)
        = Js.Responded (Js.Json code answer)
        /\ (code = 200 \/ code = 400 \/ code = 500))
  /\ db (snd (ServerRoutes.create_portal_session body w)) = db w.
Proof.
  routes. repeat split;
    repeat (branch; simpl); eauto 6.
Qed.

End SessionRoutes.

(* ================================================================= *)
(** ** The handlers on the demo *)

#[local] Existing Instance Demo.collaborators.

(** The record of "abc" after a "subscription updated" event: the trial
    is over, the expiry is gone, the plan and the customer are those of
    the subscription. *)
Example updated_once :
  record "abc" (snd (Server.webhook (Demo.signed "updated") Demo.world_abc))
  = Some {| Db.deviceId := Db.TEXT "abc"; Db.plan := Db.TEXT "monthly";
            Db.status := Db.TEXT "active"; Db.trial := Db.NULL;
            Db.expiresAt := Db.NULL; Db.customerId := Db.TEXT "cus_1" |}.
Proof. reflexivity. Qed.

(** The example of the specification: the record of "abc" on trial, then
    an "invoice payment failed" event for its subscription. *)
Example payment_failed_on_abc :
  record "abc"
    (snd (Server.webhook (Demo.signed "payment failed") Demo.world_abc))
  = Some {| Db.deviceId := Db.TEXT "abc"; Db.plan := Db.TEXT "monthly";
            Db.status := Db.TEXT "inactive"; Db.trial := Db.NULL;
            Db.expiresAt := Db.INTEGER 1700000000000;
            Db.customerId := Db.TEXT "cus_1" |}.
Proof. reflexivity. Qed.

(** The same event on the table that db.js creates: the UPDATE does not
    depend on the [trial] column. *)
Example payment_failed_on_abc_with_trial :
  option_map Db.status
    (record "abc"
       (snd (Server.webhook (Demo.signed "payment failed") Demo.world_trial)))
  = Some (Db.TEXT "inactive").
Proof. reflexivity. Qed.

(** A first "subscription created" event on an empty table of five
    columns creates the record. *)
Example created_on_empty_table :
  record "abc"
    (snd (Server.webhook (Demo.signed "created")
            (with_db Demo.world_abc
               {| Db.trial_column := false; Db.rows := [] |})))
  = Some Demo.row_abc.
Proof. reflexivity. Qed.

(** On the table that db.js itself creates the same event is
    acknowledged by server.js and stores nothing: the INSERT does not
    name the NOT NULL column [trial]. *)
Example created_on_fresh_table :
  Server.webhook (Demo.signed "created") Demo.fresh
  = (Js.Responded received, Demo.fresh).
Proof. reflexivity. Qed.

(** On the table of db.js a "subscription updated" event is
    acknowledged by server.js and changes nothing, for the same
    reason. *)
Example updated_with_trial_column :
  Server.webhook (Demo.signed "updated") Demo.world_trial
  = (Js.Responded received, Demo.world_trial).
Proof. reflexivity. Qed.

(** In part_000 the failed INSERT is not caught. *)
Example part_000_created_on_fresh_table :
  Part000.webhook (Demo.signed "created") Demo.fresh
  = (Js.Unhandled Js.SqliteError, Demo.fresh).
Proof. reflexivity. Qed.

(** C7 (part_000).  A verified "checkout completed" event whose
    subscription Stripe fails to return: the handler of part_000
    rejects with the error of the SDK and sends no acknowledgment,
    where the handler of server.js acknowledges. *)
Theorem part_000_lookup_failure_is_not_acknowledged :
  verified (Demo.signed "checkout sub_2")
    (Stripe.checkout_session_completed Demo.session_2)
  /\ Part000.webhook (Demo.signed "checkout sub_2") Demo.world_abc
     = (Js.Unhandled Js.StripeError, Demo.world_abc)
  /\ Server.webhook (Demo.signed "checkout sub_2") Demo.world_abc
     = (Js.Responded received, Demo.world_abc).
Proof. repeat split. Qed.

(** C8 (part_000).  The status of a device without a record: part_000
    answers [{ plan: "free", status: "inactive", trial: false }], which
    is not the default entitlement [{ plan: "free", status: "inactive",
    expiresAt: null }] that server.js answers. *)
Theorem part_000_status_of_unknown_device :
  record "xyz" Demo.world_abc = None
  /\ Part000.subscription_status "xyz" Demo.world_abc
     = (Js.Responded (Js.Json 200 [("plan", Js.JStr "free");
                                   ("status", Js.JStr "inactive");
                                   ("trial", Js.JBool false)]),
        Demo.world_abc)
  /\ fst (Part000.subscription_status "xyz" Demo.world_abc)
     <> Js.Responded Server.free_inactive
  /\ Server.subscription_status "xyz" Demo.world_abc
     = (Js.Responded Server.free_inactive, Demo.world_abc).
Proof. repeat split. discriminate. Qed.

(* ----------------------------------------------------------------- *)
(** *** The properties at the demo *)

Lemma subscription_updated_idempotent_witness :
  verified (Demo.signed "updated")
    (Stripe.customer_subscription_updated (Demo.sub_1_active Demo.abc))
  /\ (Server.webhook (Demo.signed "updated")
        (snd (Server.webhook (Demo.signed "updated") Demo.world_abc))
      = Server.webhook (Demo.signed "updated") Demo.world_abc
      /\ Part000.webhook (Demo.signed "updated")
           (snd (Part000.webhook (Demo.signed "updated") Demo.world_abc))
         = Part000.webhook (Demo.signed "updated") Demo.world_abc).
Proof.
  split; [reflexivity|].
  apply (@subscription_updated_idempotent Demo.collaborators
           (Demo.signed "updated") (Demo.sub_1_active Demo.abc)).
  reflexivity.
Defined.

Lemma checkout_and_created_commute_witness :
  (verified (Demo.signed "checkout")
     (Stripe.checkout_session_completed Demo.session_1)
   /\ verified (Demo.signed "created")
        (Stripe.customer_subscription_created (Demo.sub_1 Demo.abc))
   /\ same_subscription Demo.world_abc Demo.session_1 (Demo.sub_1 Demo.abc))
  /\ (snd (Server.webhook (Demo.signed "created")
             (snd (Server.webhook (Demo.signed "checkout") Demo.world_abc)))
      = snd (Server.webhook (Demo.signed "checkout")
               (snd (Server.webhook (Demo.signed "created") Demo.world_abc)))
      /\ snd (Part000.webhook (Demo.signed "created")
                (snd (Part000.webhook (Demo.signed "checkout") Demo.world_abc)))
         = snd (Part000.webhook (Demo.signed "checkout")
                  (snd (Part000.webhook (Demo.signed "created")
                          Demo.world_abc)))).
Proof.
  assert (H : same_subscription Demo.world_abc Demo.session_1
                (Demo.sub_1 Demo.abc)).
  { split; [exists "abc"; split; reflexivity|].
    split; [exists "monthly"; split; reflexivity|].
    split; [reflexivity|].
    intros sub' H. vm_compute in H. injection H as <-. repeat split. }
  split; [split; [reflexivity | split; [reflexivity | exact H]]|].
  apply (@checkout_and_created_commute Demo.collaborators
           (Demo.signed "checkout") (Demo.signed "created")
           Demo.session_1 (Demo.sub_1 Demo.abc) Demo.world_abc);
    [reflexivity | reflexivity | exact H].
Defined.

Lemma unlinked_event_is_skipped_witness :
  (verified (Demo.signed "deleted, no device")
     (Stripe.customer_subscription_deleted (Demo.sub_1 []))
   /\ recognized (Stripe.customer_subscription_deleted (Demo.sub_1 []))
   /\ linked_device Demo.world_abc
        (Stripe.customer_subscription_deleted (Demo.sub_1 [])) = None)
  /\ Server.webhook (Demo.signed "deleted, no device") Demo.world_abc
     = (Js.Responded received, Demo.world_abc).
Proof.
  split; [repeat split|].
  apply (@unlinked_event_is_skipped Demo.collaborators
           (Demo.signed "deleted, no device")
           (Stripe.customer_subscription_deleted (Demo.sub_1 [])));
    [reflexivity | exact I | reflexivity].
Defined.

Lemma subscription_deleted_resets_witness :
  (verified (Demo.signed "deleted")
     (Stripe.customer_subscription_deleted (Demo.sub_1 Demo.abc))
   /\ linked_device Demo.world_abc
        (Stripe.customer_subscription_deleted (Demo.sub_1 Demo.abc))
      = Some "abc"
   /\ record "abc" Demo.world_abc = Some Demo.row_abc)
  /\ ((exists r',
         record "abc" (snd (Server.webhook (Demo.signed "deleted")
                              Demo.world_abc)) = Some r'
         /\ soft_reset Demo.row_abc r')
      /\ (exists r',
            record "abc" (snd (Part000.webhook (Demo.signed "deleted")
                                 Demo.world_abc)) = Some r'
            /\ soft_reset Demo.row_abc r')).
Proof.
  split; [repeat split|].
  apply (@subscription_deleted_resets Demo.collaborators
           (Demo.signed "deleted") (Demo.sub_1 Demo.abc) "abc");
    reflexivity.
Defined.

Lemma payment_failed_changes_status_only_witness :
  (verified (Demo.signed "payment failed")
     (Stripe.invoice_payment_failed
        {| Stripe.invoice_subscription := Some "sub_1" |})
   /\ linked_device Demo.world_abc
        (Stripe.invoice_payment_failed
           {| Stripe.invoice_subscription := Some "sub_1" |}) = Some "abc")
  /\ ((forall r, record "abc" Demo.world_abc = Some r ->
         exists r',
           record "abc" (snd (Server.webhook (Demo.signed "payment failed")
                                Demo.world_abc)) = Some r'
           /\ only_inactive r r')
      /\ (forall k, k <> Db.TEXT "abc" ->
            Db.get k (db (snd (Server.webhook (Demo.signed "payment failed")
                                 Demo.world_abc)))
            = Db.get k (db Demo.world_abc))
      /\ stripe (snd (Server.webhook (Demo.signed "payment failed")
                        Demo.world_abc))
         = stripe Demo.world_abc).
Proof.
  split; [repeat split|].
  apply (@payment_failed_changes_status_only Demo.collaborators
           (Demo.signed "payment failed")
           {| Stripe.invoice_subscription := Some "sub_1" |} "abc");
    reflexivity.
Defined.

Lemma unverifiable_is_rejected_witness :
  unverifiable (Demo.unsigned "updated")
  /\ ((rejected (fst (Server.webhook (Demo.unsigned "updated") Demo.world_abc))
       /\ snd (Server.webhook (Demo.unsigned "updated") Demo.world_abc)
          = Demo.world_abc)
      /\ (rejected (fst (Part000.webhook (Demo.unsigned "updated")
                           Demo.world_abc))
          /\ snd (Part000.webhook (Demo.unsigned "updated") Demo.world_abc)
             = Demo.world_abc)).
Proof.
  assert (H : unverifiable (Demo.unsigned "updated"))
    by (eexists; reflexivity).
  split; [exact H|].
  apply (@unverifiable_is_rejected Demo.collaborators
           (Demo.unsigned "updated") Demo.world_abc H).
Defined.

Lemma customer_stays_set_witness :
  (verified (Demo.signed "updated")
     (Stripe.customer_subscription_updated (Demo.sub_1_active Demo.abc))
   /\ record "abc" Demo.world_abc = Some Demo.row_abc
   /\ Db.customerId Demo.row_abc <> Db.NULL)
  /\ exists r',
       record "abc" (snd (Server.webhook (Demo.signed "updated")
                            Demo.world_abc)) = Some r'
       /\ Db.customerId r' <> Db.NULL.
Proof.
  split; [repeat split; discriminate|].
  apply (@customer_stays_set Demo.collaborators (Demo.signed "updated")
           (Stripe.customer_subscription_updated (Demo.sub_1_active Demo.abc))
           "abc" Demo.row_abc);
    [reflexivity | reflexivity | discriminate].
Defined.

Lemma update_only_events_create_no_row_witness :
  (verified (Demo.signed "deleted")
     (Stripe.customer_subscription_deleted (Demo.sub_1 Demo.abc))
   /\ update_only (Stripe.customer_subscription_deleted (Demo.sub_1 Demo.abc)))
  /\ (length (Db.rows (db (snd (Server.webhook (Demo.signed "deleted")
                                  Demo.fresh))))
      = length (Db.rows (db Demo.fresh))
      /\ forall d, record d Demo.fresh = None ->
                   record d (snd (Server.webhook (Demo.signed "deleted")
                                    Demo.fresh)) = None).
Proof.
  split; [repeat split|].
  apply (@update_only_events_create_no_row Demo.collaborators
           (Demo.signed "deleted")
           (Stripe.customer_subscription_deleted (Demo.sub_1 Demo.abc)));
    [reflexivity | exact I].
Defined.

(* ----------------------------------------------------------------- *)
(** *** The further properties at the demo *)

#[local] Existing Instance DemoSessions.sessions.

Lemma unknown_event_is_ignored_witness :
  verified (Demo.signed "ping") (Stripe.other "ping")
  /\ (Server.webhook (Demo.signed "ping") Demo.world_abc
      = (Js.Responded received, Demo.world_abc)
      /\ Part000.webhook (Demo.signed "ping") Demo.world_abc
         = (Js.Responded received, Demo.world_abc)).
Proof.
  split; [reflexivity|].
  apply (@unknown_event_is_ignored Demo.collaborators (Demo.signed "ping")
           "ping" Demo.world_abc).
  reflexivity.
Defined.

Lemma checkout_completed_stores_entitlement_witness :
  exists st,
    subscriptions_update (stripe Demo.world_abc) (Js.str "sub_1")
      (Js.str "abc") = Some st
    /\ acknowledged (fst (Server.webhook (Demo.signed "checkout")
                            Demo.world_abc))
    /\ stripe (snd (Server.webhook (Demo.signed "checkout") Demo.world_abc))
       = st
    /\ exists r',
         record "abc" (snd (Server.webhook (Demo.signed "checkout")
                              Demo.world_abc)) = Some r'
         /\ Db.plan r' = Db.TEXT "monthly"
         /\ Db.status r' = Db.TEXT (Stripe.status (Demo.sub_1 Demo.abc))
         /\ Db.expiresAt r'
            = expires_at (Stripe.trial_end (Demo.sub_1 Demo.abc))
         /\ Db.customerId r'
            = Db.TEXT (Stripe.customer (Demo.sub_1 Demo.abc)).
Proof.
  eexists. split; [reflexivity|].
  apply (@checkout_completed_stores_entitlement Demo.collaborators
           (Demo.signed "checkout") Demo.session_1 "abc" "sub_1" "monthly"
           (Demo.sub_1 Demo.abc));
    try reflexivity.
  discriminate.
Defined.

Lemma status_after_subscription_event_witness :
  Server.subscription_status "abc"
    (snd (Server.webhook (Demo.signed "updated") Demo.world_abc))
  = (Js.Responded
       (Js.Json 200
          (status_body (Js.JStr "monthly") (Js.JStr "active") Js.JNull)),
     snd (Server.webhook (Demo.signed "updated") Demo.world_abc)).
Proof.
  apply (@status_after_subscription_event Demo.collaborators
           (Demo.signed "updated")
           (Stripe.customer_subscription_updated (Demo.sub_1_active Demo.abc))
           (Demo.sub_1_active Demo.abc) "abc" "monthly" Demo.world_abc);
    try reflexivity.
  right. reflexivity.
Defined.

Lemma status_after_deleted_witness :
  Server.subscription_status "abc"
    (snd (Server.webhook (Demo.signed "deleted") Demo.world_abc))
  = (Js.Responded Server.free_inactive,
     snd (Server.webhook (Demo.signed "deleted") Demo.world_abc)).
Proof.
  apply (@status_after_deleted Demo.collaborators (Demo.signed "deleted")
           (Demo.sub_1 Demo.abc) "abc" Demo.world_abc);
    reflexivity.
Defined.

Lemma table_of_db_js_stores_no_entitlement_witness :
  Db.trial_column (db Demo.fresh) = true
  /\ acknowledged (fst (Server.webhook (Demo.signed "created") Demo.fresh))
  /\ db (snd (Server.webhook (Demo.signed "created") Demo.fresh))
     = db Demo.fresh.
Proof.
  split; [reflexivity|].
  apply (@table_of_db_js_stores_no_entitlement Demo.collaborators
           (Demo.signed "created")
           (Stripe.customer_subscription_created (Demo.sub_1 Demo.abc))
           Demo.fresh);
    [reflexivity | exact I | reflexivity].
Defined.

Lemma records_are_never_removed_witness :
  (forall d, record d Demo.world_abc <> None ->
             record d (snd (Server.webhook (Demo.signed "deleted")
                              Demo.world_abc)) <> None)
  /\ (length (Db.rows (db Demo.world_abc))
      <= length (Db.rows (db (snd (Server.webhook (Demo.signed "deleted")
                                     Demo.world_abc))))
      <= S (length (Db.rows (db Demo.world_abc))))%nat.
Proof.
  apply (@records_are_never_removed Demo.collaborators
           (Demo.signed "deleted")
           (Stripe.customer_subscription_deleted (Demo.sub_1 Demo.abc))
           Demo.world_abc).
  reflexivity.
Defined.

Lemma deliveries_keep_constraints_witness :
  constrained (db Demo.world_abc)
  /\ constrained (db (snd (Server.webhook (Demo.signed "created")
                             Demo.world_abc))).
Proof.
  assert (H : constrained (db Demo.world_abc)).
  { split; simpl.
    - constructor; [simpl; tauto | constructor].
    - constructor; [split; reflexivity | constructor]. }
  split; [exact H|].
  apply (@deliveries_keep_constraints Demo.collaborators
           (Demo.signed "created")
           (Stripe.customer_subscription_created (Demo.sub_1 Demo.abc))
           Demo.world_abc);
    [reflexivity | exact H].
Defined.

Lemma redelivery_changes_nothing_witness :
  Server.webhook (Demo.signed "payment failed")
    (snd (Server.webhook (Demo.signed "payment failed") Demo.world_abc))
  = Server.webhook (Demo.signed "payment failed") Demo.world_abc.
Proof.
  apply (@redelivery_changes_nothing Demo.collaborators
           (Demo.signed "payment failed")
           (Stripe.invoice_payment_failed
              {| Stripe.invoice_subscription := Some "sub_1" |})
           Demo.world_abc);
    [reflexivity | exact I].
Defined.

Lemma only_checkout_writes_to_stripe_witness :
  stripe (snd (Server.webhook (Demo.signed "created") Demo.world_abc))
  = stripe Demo.world_abc
  /\ stripe (snd (Part000.webhook (Demo.signed "created") Demo.world_abc))
     = stripe Demo.world_abc.
Proof.
  apply (@only_checkout_writes_to_stripe Demo.collaborators
           (Demo.signed "created")
           (Stripe.customer_subscription_created (Demo.sub_1 Demo.abc))
           Demo.world_abc);
    [reflexivity | exact I].
Defined.

Lemma cancellation_absorbs_payment_failure_witness :
  snd (Server.webhook (Demo.signed "payment failed")
         (snd (Server.webhook (Demo.signed "deleted") Demo.world_abc)))
  = snd (Server.webhook (Demo.signed "deleted") Demo.world_abc)
  /\ snd (Server.webhook (Demo.signed "deleted")
            (snd (Server.webhook (Demo.signed "payment failed")
                    Demo.world_abc)))
     = snd (Server.webhook (Demo.signed "deleted") Demo.world_abc).
Proof.
  apply (@cancellation_absorbs_payment_failure Demo.collaborators
           (Demo.signed "deleted") (Demo.signed "payment failed")
           (Demo.sub_1 Demo.abc)
           {| Stripe.invoice_subscription := Some "sub_1" |}
           "abc" Demo.world_abc);
    reflexivity.
Defined.

(** The record of "abc" has lost its expiry when the trial ended; a
    "subscription created" event that carries a trial end reaches
    part_000 afterwards. *)
Lemma part_000_created_keeps_expiry_witness :
  exists r,
    record "abc" (snd (Server.webhook (Demo.signed "updated") Demo.world_abc))
    = Some r
    /\ Db.expiresAt r = Db.NULL
    /\ exists r',
         record "abc"
           (snd (Part000.webhook (Demo.signed "created")
                   (snd (Server.webhook (Demo.signed "updated")
                           Demo.world_abc)))) = Some r'
         /\ Db.expiresAt r' = Db.expiresAt r
         /\ Db.plan r' = Db.TEXT "monthly"
         /\ Db.status r' = Db.TEXT (Stripe.status (Demo.sub_1 Demo.abc))
         /\ Db.customerId r'
            = Db.TEXT (Stripe.customer (Demo.sub_1 Demo.abc)).
Proof.
  eexists. split; [reflexivity|]. split; [reflexivity|].
  apply (@part_000_created_keeps_expiry Demo.collaborators
           (Demo.signed "created") (Demo.sub_1 Demo.abc) "abc" "monthly");
    reflexivity.
Defined.

Lemma part_000_updated_creates_no_row_witness :
  length (Db.rows (db (snd (Part000.webhook (Demo.signed "updated")
                              DemoSessions.empty))))
  = length (Db.rows (db DemoSessions.empty))
  /\ (forall d, record d DemoSessions.empty = None ->
                record d (snd (Part000.webhook (Demo.signed "updated")
                                 DemoSessions.empty)) = None)
  /\ (forall d r, record d DemoSessions.empty = Some r ->
        exists r',
          record d (snd (Part000.webhook (Demo.signed "updated")
                           DemoSessions.empty)) = Some r'
          /\ Db.customerId r' = Db.customerId r).
Proof.
  apply (@part_000_updated_creates_no_row Demo.collaborators
           (Demo.signed "updated") (Demo.sub_1_active Demo.abc)
           DemoSessions.empty).
  reflexivity.
Defined.

Lemma invalid_checkout_is_rejected_witness :
  ServerRoutes.create_checkout_session
    [("plan", Body.Str "weekly"); ("deviceId", Body.Str "abc")]
    Demo.world_abc
  = (Js.Responded (Js.Json 400 (error_body "Invalid checkout request")),
     Demo.world_abc)
  /\ Part000Routes.create_checkout_session
       [("plan", Body.Str "weekly"); ("deviceId", Body.Str "abc")]
       Demo.world_abc
     = (Js.Responded (Js.Json 400 (error_body "Invalid checkout request")),
        Demo.world_abc).
Proof.
  apply (@invalid_checkout_is_rejected Demo.collaborators
           DemoSessions.sessions
           [("plan", Body.Str "weekly"); ("deviceId", Body.Str "abc")]
           Demo.world_abc).
  right. reflexivity.
Defined.

Lemma checkout_session_for_plan_witness :
  ServerRoutes.create_checkout_session DemoSessions.yearly_for_abc
    Demo.world_abc
  = (Js.Responded
       (Js.Json 200
          [("url", Js.JStr "https://checkout.stripe.com/price_1Sjtj10V3msArFU1pteEpDbb")]),
     Demo.world_abc).
Proof.
  exact (@checkout_session_for_plan Demo.collaborators DemoSessions.sessions
           DemoSessions.yearly_for_abc (Some (Body.Str "abc")) "yearly"
           Demo.world_abc eq_refl eq_refl eq_refl (or_intror eq_refl)).
Defined.

Lemma part_000_checkout_failure_is_unanswered_witness :
  Part000Routes.create_checkout_session DemoSessions.yearly_for_abc
    DemoSessions.outage
  = (Js.Unhandled Js.StripeError, DemoSessions.outage).
Proof.
  apply (@part_000_checkout_failure_is_unanswered Demo.collaborators
           DemoSessions.sessions DemoSessions.yearly_for_abc
           DemoSessions.outage);
    reflexivity.
Defined.

Lemma portal_without_customer_witness :
  ServerRoutes.create_portal_session (DemoSessions.device "xyz")
    Demo.world_abc
  = (Js.Responded (Js.Json 400 (error_body "No customer found")),
     Demo.world_abc)
  /\ Part000Routes.create_portal_session (DemoSessions.device "xyz")
       Demo.world_abc
     = (Js.Responded (Js.Json 400 (error_body "No customer found")),
        Demo.world_abc).
Proof.
  apply (@portal_without_customer Demo.collaborators DemoSessions.sessions
           (DemoSessions.device "xyz") "xyz" Demo.world_abc);
    reflexivity.
Defined.

Lemma portal_uses_stored_customer_witness :
  ServerRoutes.create_portal_session (DemoSessions.device "abc")
    Demo.world_abc
  = (Js.Responded
       (Js.Json 200 [("url", Js.JStr "https://billing.stripe.com/cus_1")]),
     Demo.world_abc).
Proof.
  exact (@portal_uses_stored_customer Demo.collaborators
           DemoSessions.sessions (DemoSessions.device "abc") "abc"
           Demo.row_abc Demo.world_abc eq_refl eq_refl eq_refl).
Defined.

Lemma portal_after_subscription_event_witness :
  ServerRoutes.create_portal_session (DemoSessions.device "abc")
    (snd (Server.webhook (Demo.signed "created") DemoSessions.empty))
  = (Js.Responded
       (Js.Json 200 [("url", Js.JStr "https://billing.stripe.com/cus_1")]),
     snd (Server.webhook (Demo.signed "created") DemoSessions.empty)).
Proof.
  refine (@portal_after_subscription_event Demo.collaborators
            DemoSessions.sessions (Demo.signed "created")
            (Stripe.customer_subscription_created (Demo.sub_1 Demo.abc))
            (Demo.sub_1 Demo.abc) "abc" "monthly"
            (DemoSessions.device "abc") DemoSessions.empty
            eq_refl (or_introl eq_refl) eq_refl eq_refl eq_refl _ eq_refl).
  discriminate.
Defined.
